(** * ResumeScoreCard: the resume match score card of the job board client

    A shallow embedding of [client/src/components/resume-score-card.tsx]
    (the component [ResumeScoreCard]) and the properties of its three
    presentations (pending, failed, scored), of the score bands, of the
    recommendation list and of the qualification verdict; then of the two
    pages that follow it in the file, the jobs page ([Jobs]: search,
    listing, job cards, the form that adds a job) and the sign-in page
    ([Auth]). *)

From Stdlib Require Import QArith Bool List FinFun String Ascii Lia Lqa.
Import ListNotations.

Local Open Scope Q_scope.

(** ** JavaScript numbers

    A TypeScript [number] is an IEEE 754 double.  Every finite double denotes
    a rational, and the comparisons of the language compare the denoted
    values, so a finite number is modelled by the rational it denotes; the
    three special values are kept apart.  Arithmetic on finite values is
    exact here: rounding, overflow and the sign of zero are not modelled. *)

Inductive number : Type :=
| NaN
| PosInfinity
| NegInfinity
| Finite (q : Q).

Definition Qlt_bool (a b : Q) : bool := negb (Qle_bool b a).

(** [x < y] *)
Definition js_lt (x y : number) : bool :=
  match x, y with
  | NaN, _ | _, NaN => false
  | Finite a, Finite b => Qlt_bool a b
  | NegInfinity, NegInfinity => false
  | NegInfinity, _ => true
  | PosInfinity, _ => false
  | Finite _, PosInfinity => true
  | Finite _, NegInfinity => false
  end.

(** [x <= y] *)
Definition js_le (x y : number) : bool :=
  match x, y with
  | NaN, _ | _, NaN => false
  | Finite a, Finite b => Qle_bool a b
  | NegInfinity, _ => true
  | PosInfinity, PosInfinity => true
  | PosInfinity, _ => false
  | Finite _, PosInfinity => true
  | Finite _, NegInfinity => false
  end.

(** [x > y] and [x >= y] *)
Definition js_gt (x y : number) : bool := js_lt y x.
Definition js_ge (x y : number) : bool := js_le y x.

(** [x === y] on two numbers *)
Definition js_strict_eq (x y : number) : bool :=
  match x, y with
  | Finite a, Finite b => Qeq_bool a b
  | PosInfinity, PosInfinity => true
  | NegInfinity, NegInfinity => true
  | _, _ => false
  end.

(** [x / y]: a zero divisor gives [NaN] or an infinity, never an exception. *)
Definition js_div (x y : number) : number :=
  match x, y with
  | NaN, _ | _, NaN => NaN
  | Finite a, Finite b =>
      if Qeq_bool b 0 then
        if Qeq_bool a 0 then NaN
        else if Qle_bool 0 a then PosInfinity else NegInfinity
      else Finite (a / b)
  | Finite _, _ => Finite 0
  | PosInfinity, Finite b => if Qle_bool 0 b then PosInfinity else NegInfinity
  | NegInfinity, Finite b => if Qle_bool 0 b then NegInfinity else PosInfinity
  | _, _ => NaN
  end.

(** [x * y] *)
Definition js_mul (x y : number) : number :=
  match x, y with
  | NaN, _ | _, NaN => NaN
  | Finite a, Finite b => Finite (a * b)
  | Finite a, PosInfinity | PosInfinity, Finite a =>
      if Qeq_bool a 0 then NaN
      else if Qle_bool 0 a then PosInfinity else NegInfinity
  | Finite a, NegInfinity | NegInfinity, Finite a =>
      if Qeq_bool a 0 then NaN
      else if Qle_bool 0 a then NegInfinity else PosInfinity
  | PosInfinity, PosInfinity | NegInfinity, NegInfinity => PosInfinity
  | _, _ => NegInfinity
  end.

Coercion Finite : Q >-> number.

(** The order of the denoted values, as propositions: what a sentence such
    as "the score is at least 5" means for a number. *)
Definition num_le (x y : number) : Prop :=
  match x, y with
  | NaN, _ | _, NaN => False
  | Finite a, Finite b => a <= b
  | NegInfinity, _ => True
  | _, PosInfinity => True
  | _, _ => False
  end.

Definition num_lt (x y : number) : Prop :=
  match x, y with
  | NaN, _ | _, NaN => False
  | Finite a, Finite b => a < b
  | NegInfinity, NegInfinity => False
  | NegInfinity, _ => True
  | PosInfinity, _ => False
  | Finite _, PosInfinity => True
  | Finite _, NegInfinity => False
  end.

(** A score within its stated range [[lo, hi]]: finite and between the bounds. *)
Definition in_range (lo hi : Q) (x : number) : Prop :=
  match x with
  | Finite q => lo <= q /\ q <= hi
  | _ => False
  end.

Local Open Scope string_scope.

(** ** The rendered output

    The component returns a tree of elements.  The imported components
    ([Card], [Badge], [Progress], the icons) are kept as element tags with
    their props; a child is a string, a number, a template literal that
    interpolates a number (numbers are not printed here), an element, or
    nothing ([false] and [undefined] render nothing). *)

Inductive piece : Type :=
| PStr (s : string)
| PNum (x : number).

Inductive value : Type :=
| Str (s : string)
| Num (x : number)
| Tpl (ps : list piece).

Unset Elimination Schemes.
Inductive node : Type :=
| Leaf (v : value)
| Hole
| Elem (tag : string) (props : list (string * value)) (children : list node).
Set Elimination Schemes.

Section node_ind.
Variable P : node -> Prop.
Hypothesis P_leaf : forall v, P (Leaf v).
Hypothesis P_hole : P Hole.
Hypothesis P_elem : forall tag props children,
    Forall P children -> P (Elem tag props children).

Fixpoint node_ind (n : node) : P n :=
  match n with
  | Leaf v => P_leaf v
  | Hole => P_hole
  | Elem tag props children =>
      P_elem tag props children
        ((fix each (l : list node) : Forall P l :=
            match l with
            | [] => Forall_nil P
            | c :: l' => Forall_cons c (node_ind c) (each l')
            end) children)
  end.
End node_ind.

(** [<tag className="cls">children</tag>] *)
Definition el (tag cls : string) (children : list node) : node :=
  Elem tag [("className", Str cls)] children.

Definition text (s : string) : node := Leaf (Str s).

(** [{c && n}] for a boolean [c] *)
Definition when (c : bool) (n : node) : node := if c then n else Hole.

(** *** Reading the output *)

(** The string leaves of a tree, in document order. *)
Fixpoint texts (n : node) : list string :=
  match n with
  | Leaf (Str s) => [s]
  | Leaf _ => []
  | Hole => []
  | Elem _ _ children => flat_map texts children
  end.

(** The elements with a given tag, in document order. *)
Fixpoint select (t : string) (n : node) : list node :=
  match n with
  | Elem tag props children =>
      (if String.eqb tag t then [n] else []) ++ flat_map (select t) children
  | _ => []
  end.

Fixpoint lookup (k : string) (props : list (string * value)) : option value :=
  match props with
  | [] => None
  | (k', v) :: rest => if String.eqb k' k then Some v else lookup k rest
  end.

Definition prop (k : string) (n : node) : option value :=
  match n with
  | Elem _ props _ => lookup k props
  | _ => None
  end.

Definition children_of (n : node) : list node :=
  match n with
  | Elem _ _ children => children
  | _ => []
  end.

(** The [className] strings of all elements, in document order. *)
Fixpoint class_names (n : node) : list string :=
  match n with
  | Elem _ props children =>
      match lookup "className" props with
      | Some (Str c) => [c]
      | _ => []
      end ++ flat_map class_names children
  | _ => []
  end.

(** ** The props of the component *)

Record Company : Type := { name : string }.

Record Job : Type := {
  title : string;
  company : option Company
}.

(** An optional field ([companyScore?], [processingError?],
    [parsedCompanies?], [job?]) is [None] when absent. *)
Record Application : Type := {
  id : number;
  matchScore : number;
  skillsScore : number;
  experienceScore : number;
  educationScore : number;
  companyScore : option number;
  isProcessed : bool;
  processingError : option string;
  parsedCompanies : option (list string);
  job : option Job
}.

(** ** The component *)

Definition getScoreColor (score : number) : string :=
  if js_ge score (Finite 8) then "text-green-600 bg-green-100"
  else if js_ge score (Finite 6) then "text-yellow-600 bg-yellow-100"
  else if js_ge score (Finite 4) then "text-orange-600 bg-orange-100"
  else "text-red-600 bg-red-100".

Definition getScoreLabel (score : number) : string :=
  if js_ge score (Finite 8) then "Excellent Match"
  else if js_ge score (Finite 6) then "Good Match"
  else if js_ge score (Finite 4) then "Fair Match"
  else "Needs Improvement".

Definition getProgressColor (score : number) : string :=
  if js_ge score (Finite 8) then "bg-green-500"
  else if js_ge score (Finite 6) then "bg-yellow-500"
  else if js_ge score (Finite 4) then "bg-orange-500"
  else "bg-red-500".

(** A string in a condition: the empty string is false. *)
Definition truthy (s : option string) : bool :=
  match s with
  | Some s => negb (String.eqb s "")
  | None => false
  end.

(** [xs.slice(0, 2).join(', ')] *)
Definition first_two_joined (xs : list string) : string :=
  String.concat ", " (firstn 2 xs).

(** The early return taken while [isProcessed] is false. *)
Definition pending_view : node :=
  el "Card" "w-full"
    [ Elem "CardHeader" []
        [ el "CardTitle" "flex items-center gap-2"
            [ el "AlertCircle" "h-5 w-5 text-yellow-500" [];
              text "Resume Analysis Pending" ];
          Elem "CardDescription" []
            [ text "Your resume is being analyzed. This usually takes a few minutes." ] ];
      Elem "CardContent" []
        [ el "div" "flex items-center gap-2"
            [ el "div" "animate-spin rounded-full h-4 w-4 border-b-2 border-blue-600" [];
              el "span" "text-sm text-gray-600" [ text "Processing resume..." ] ] ] ].

(** The early return taken when [processingError] is truthy. *)
Definition failed_view (processingError : option string) : node :=
  el "Card" "w-full border-red-200"
    [ Elem "CardHeader" []
        [ el "CardTitle" "flex items-center gap-2 text-red-600"
            [ el "XCircle" "h-5 w-5" [];
              text "Analysis Failed" ];
          el "CardDescription" "text-red-500"
            [ match processingError with
              | Some e => text e
              | None => Hole
              end ] ];
      Elem "CardContent" []
        [ el "p" "text-sm text-gray-600"
            [ text "Please try uploading your resume again or contact support if the issue persists." ] ] ].

(** [(score / scale) * 100], the expression given to each progress bar. *)
Definition percent (score : number) (scale : Q) : number :=
  js_mul (js_div score (Finite scale)) (Finite 100).

(** [application.job?.company] *)
Definition job_company (application : Application) : option Company :=
  match job application with
  | Some j => company j
  | None => None
  end.

Definition present {A : Type} (o : option A) : bool :=
  match o with
  | Some _ => true
  | None => false
  end.

(** The children of the recommendations list, one conditional item per rule. *)
Definition recommendation_items (application : Application) (companyScore : number)
  : list node :=
  let matchScore := matchScore application in
  let skillsScore := skillsScore application in
  let experienceScore := experienceScore application in
  let educationScore := educationScore application in
  [ when (js_lt skillsScore (Finite 4))
      (Elem "li" [] [ text "• Focus on highlighting more relevant technical skills (highest impact)" ]);
    when (js_lt experienceScore (Finite 1.5))
      (Elem "li" [] [ text "• Emphasize your relevant work experience and achievements" ]);
    when (js_lt educationScore (Finite 1.5))
      (Elem "li" [] [ text "• Include relevant certifications or educational background" ]);
    when (js_strict_eq companyScore (Finite 0) && present (job_company application))
      (Elem "li" [] [ text "• Highlight any experience with similar companies or clients" ]);
    when (js_gt companyScore (Finite 0))
      (Elem "li" [] [ text "• Excellent! Your experience with similar companies is a strong advantage" ]);
    when (js_ge matchScore (Finite 7))
      (Elem "li" [] [ text "• Great match! Your profile aligns well with this position" ]);
    when (js_lt matchScore (Finite 5))
      (Elem "li" [] [ text "• Consider tailoring your resume to better match job requirements" ]) ].

(** The qualification status block. *)
Definition qualification_status (matchScore : number) : node :=
  el "div" "flex items-center justify-center gap-2 p-3 rounded-lg bg-gray-50"
    [ if js_ge matchScore (Finite 5) then
        Elem "Fragment" []
          [ el "CheckCircle" "h-5 w-5 text-green-600" [];
            el "span" "font-medium text-green-700"
              [ text "Qualified - Resume meets minimum requirements" ] ]
      else
        Elem "Fragment" []
          [ el "XCircle" "h-5 w-5 text-red-600" [];
            el "span" "font-medium text-red-700"
              [ text "Below threshold - Consider improving your resume" ] ] ].

(** The card header: the title, with the job and its company when given. *)
Definition card_header (application : Application) : node :=
  Elem "CardHeader" []
    [ el "CardTitle" "flex items-center gap-2"
        [ el "Trophy" "h-5 w-5 text-blue-600" [];
          text "Resume Match Score";
          match job application with
          | Some j =>
              el "div" "ml-auto text-sm font-normal text-gray-600"
                [ text (title j);
                  match company j with
                  | Some c => text (" at " ++ name c)
                  | None => Hole
                  end ]
          | None => Hole
          end ];
      Elem "CardDescription" []
        [ text "How well your resume matches this job requirements" ] ].

(** The overall score: the number, its band badge and its progress bar. *)
Definition overall_score (matchScore : number) : node :=
  el "div" "text-center"
    [ el "div" "flex items-center justify-center gap-3 mb-2"
        [ el "div" ("text-3xl font-bold px-4 py-2 rounded-lg " ++ getScoreColor matchScore)
            [ Leaf (Num matchScore); text "/12" ];
          Elem "div" []
            [ Elem "Badge" [("variant", Str "secondary");
                            ("className", Str (getScoreColor matchScore))]
                [ text (getScoreLabel matchScore) ] ] ];
      Elem "Progress"
        [ ("value", Num (percent matchScore 12));
          ("className", Str "w-full h-3");
          ("style.background",
            Tpl [ PStr ("linear-gradient(to right, " ++ getProgressColor matchScore
                        ++ " 0%, " ++ getProgressColor matchScore ++ " ");
                  PNum (percent matchScore 12);
                  PStr "%, #e5e7eb ";
                  PNum (percent matchScore 12);
                  PStr "%, #e5e7eb 100%)" ]) ]
        [] ].

(** The score breakdown: skills, experience, education and company. *)
Definition score_breakdown (skillsScore experienceScore educationScore companyScore : number)
    (parsedCompanies : list string) : node :=
  el "div" "grid grid-cols-1 md:grid-cols-2 lg:grid-cols-4 gap-4"
    [ (* Skills Score *)
      el "div" "text-center p-4 bg-blue-50 rounded-lg"
        [ el "Target" "h-6 w-6 text-blue-600 mx-auto mb-2" [];
          el "div" "text-2xl font-bold text-blue-600"
            [ Leaf (Num skillsScore); text "/6" ];
          el "div" "text-sm text-gray-600" [ text "Skills Match" ];
          Elem "Progress" [("value", Num (percent skillsScore 6));
                           ("className", Str "mt-2 h-2")] [] ];
      (* Experience Score *)
      el "div" "text-center p-4 bg-purple-50 rounded-lg"
        [ el "Briefcase" "h-6 w-6 text-purple-600 mx-auto mb-2" [];
          el "div" "text-2xl font-bold text-purple-600"
            [ Leaf (Num experienceScore); text "/2" ];
          el "div" "text-sm text-gray-600" [ text "Experience" ];
          Elem "Progress" [("value", Num (percent experienceScore 2));
                           ("className", Str "mt-2 h-2")] [] ];
      (* Education Score *)
      el "div" "text-center p-4 bg-green-50 rounded-lg"
        [ el "GraduationCap" "h-6 w-6 text-green-600 mx-auto mb-2" [];
          el "div" "text-2xl font-bold text-green-600"
            [ Leaf (Num educationScore); text "/2" ];
          el "div" "text-sm text-gray-600" [ text "Education" ];
          Elem "Progress" [("value", Num (percent educationScore 2));
                           ("className", Str "mt-2 h-2")] [] ];
      (* Company Score *)
      el "div" "text-center p-4 bg-orange-50 rounded-lg"
        [ el "Building" "h-6 w-6 text-orange-600 mx-auto mb-2" [];
          el "div" "text-2xl font-bold text-orange-600"
            [ if js_gt companyScore (Finite 0)
              then Leaf (Tpl [PStr "+"; PNum companyScore])
              else Leaf (Num companyScore) ];
          el "div" "text-sm text-gray-600" [ text "Company Match" ];
          Elem "Progress"
            [("value", Num (if js_gt companyScore (Finite 0)
                            then Finite 100 else Finite 0));
             ("className", Str "mt-2 h-2")] [];
          when (Nat.ltb 0 (List.length parsedCompanies))
            (el "div" "text-xs text-orange-600 mt-1 truncate"
               [ text (first_two_joined parsedCompanies) ]) ] ].

(** The recommendations block. *)
Definition recommendations (application : Application) (companyScore : number) : node :=
  el "div" "bg-gray-50 p-4 rounded-lg"
    [ el "h4" "font-semibold mb-2 flex items-center gap-2"
        [ el "CheckCircle" "h-4 w-4 text-green-600" [];
          text "Recommendations" ];
      el "ul" "text-sm text-gray-600 space-y-1"
        (recommendation_items application companyScore) ].

(** The final return: the score card itself. *)
Definition scored_view (application : Application) (companyScore : number)
    (parsedCompanies : list string) : node :=
  el "Card" "w-full"
    [ card_header application;
      el "CardContent" "space-y-6"
        [ overall_score (matchScore application);
          score_breakdown (skillsScore application) (experienceScore application)
            (educationScore application) companyScore parsedCompanies;
          recommendations application companyScore;
          qualification_status (matchScore application) ] ].

(** [ResumeScoreCard({ application })]: the destructuring with its two
    defaults, the two early returns, then the score card. *)
Definition ResumeScoreCard (application : Application) : node :=
  let companyScore :=
    match companyScore application with
    | Some c => c
    | None => Finite 0
    end in
  let parsedCompanies :=
    match parsedCompanies application with
    | Some l => l
    | None => []
    end in
  if negb (isProcessed application) then pending_view
  else if truthy (processingError application)
       then failed_view (processingError application)
       else scored_view application companyScore parsedCompanies.

(** ** The vocabulary of the specification *)

(** The three presentation states. *)
Inductive State : Type := Pending | Failed | Scored.

(** The state the component is handed, as its dispatch reads it. *)
Definition is_scored (application : Application) : Prop :=
  isProcessed application = true /\ truthy (processingError application) = false.

(** The state tag of an output: the heading of its card title. *)
Definition state_tag (n : node) : option State :=
  match select "CardTitle" n with
  | t :: _ =>
      match texts t with
      | s :: _ =>
          if String.eqb s "Resume Analysis Pending" then Some Pending
          else if String.eqb s "Analysis Failed" then Some Failed
          else if String.eqb s "Resume Match Score" then Some Scored
          else None
      | [] => None
      end
  | [] => None
  end.

(** The four bands with their label and colour tokens. *)
Inductive Band : Type := Excellent | Good | Fair | NeedsImprovement.

Definition band_label (b : Band) : string :=
  match b with
  | Excellent => "Excellent Match"
  | Good => "Good Match"
  | Fair => "Fair Match"
  | NeedsImprovement => "Needs Improvement"
  end.

Definition band_color (b : Band) : string :=
  match b with
  | Excellent => "text-green-600 bg-green-100"
  | Good => "text-yellow-600 bg-yellow-100"
  | Fair => "text-orange-600 bg-orange-100"
  | NeedsImprovement => "text-red-600 bg-red-100"
  end.

Definition band_progress_color (b : Band) : string :=
  match b with
  | Excellent => "bg-green-500"
  | Good => "bg-yellow-500"
  | Fair => "bg-orange-500"
  | NeedsImprovement => "bg-red-500"
  end.

(** The two verdicts of the qualification gate. *)
Inductive Verdict : Type := Qualified | BelowThreshold.

Definition verdict_text (v : Verdict) : string :=
  match v with
  | Qualified => "Qualified - Resume meets minimum requirements"
  | BelowThreshold => "Below threshold - Consider improving your resume"
  end.

(** What an output shows: the band labels (the badges), the recommendations
    (the list items), the verdict (the fragment of the status block) and the
    values of the progress bars. *)
Definition shown_bands (n : node) : list string :=
  flat_map texts (select "Badge" n).

Definition shown_recommendations (n : node) : list string :=
  flat_map texts (select "li" n).

Definition shown_verdict (n : node) : list string :=
  flat_map texts (select "Fragment" n).

Definition progress_values (n : node) : list (option value) :=
  map (prop "value") (select "Progress" n).

(** The comparisons of the specification, decided on the denoted values. *)
Definition num_eq (x y : number) : Prop :=
  match x, y with
  | Finite a, Finite b => a == b
  | PosInfinity, PosInfinity => True
  | NegInfinity, NegInfinity => True
  | _, _ => False
  end.

Definition num_le_dec (x y : number) : {num_le x y} + {~ num_le x y}.
Proof.
  destruct x as [| | |a], y as [| | |b]; simpl;
    try solve [left; exact I]; try solve [right; intros []].
  destruct (Qlt_le_dec b a) as [H|H]; [right|left]; auto using Qlt_not_le.
Defined.

Definition num_lt_dec (x y : number) : {num_lt x y} + {~ num_lt x y}.
Proof.
  destruct x as [| | |a], y as [| | |b]; simpl;
    try solve [left; exact I]; try solve [right; intros []].
  destruct (Qlt_le_dec a b) as [H|H]; [left|right]; auto using Qle_not_lt.
Defined.

Definition num_eq_dec (x y : number) : {num_eq x y} + {~ num_eq x y}.
Proof.
  destruct x as [| | |a], y as [| | |b]; simpl;
    try solve [left; exact I]; try solve [right; intros []].
  apply Qeq_dec.
Defined.

(** The banding as the specification words it: cut points 8, 6 and 4 on
    the 12-point scale. *)
Definition band_spec (score : number) : Band :=
  if num_le_dec (Finite 8) score then Excellent
  else if num_le_dec (Finite 6) score then Good
  else if num_le_dec (Finite 4) score then Fair
  else NeedsImprovement.


(** The qualification gate as the specification words it. *)
Definition qualifies_spec (matchScore : number) : Verdict :=
  if num_le_dec (Finite 5) matchScore then Qualified else BelowThreshold.

(** The seven recommendation rules, in their declared order. *)
Inductive Rule : Type :=
| SkillsLow
| ExperienceLow
| EducationLow
| CompanyMissing
| CompanyMatched
| StrongMatch
| WeakMatch.

Definition rules : list Rule :=
  [SkillsLow; ExperienceLow; EducationLow; CompanyMissing; CompanyMatched;
   StrongMatch; WeakMatch].

Definition message (r : Rule) : string :=
  match r with
  | SkillsLow => "• Focus on highlighting more relevant technical skills (highest impact)"
  | ExperienceLow => "• Emphasize your relevant work experience and achievements"
  | EducationLow => "• Include relevant certifications or educational background"
  | CompanyMissing => "• Highlight any experience with similar companies or clients"
  | CompanyMatched => "• Excellent! Your experience with similar companies is a strong advantage"
  | StrongMatch => "• Great match! Your profile aligns well with this position"
  | WeakMatch => "• Consider tailoring your resume to better match job requirements"
  end.

(** The company score the rules read: the field, or 0 when it is absent. *)
Definition company_score (application : Application) : number :=
  match companyScore application with
  | Some c => c
  | None => Finite 0
  end.

(** The predicate of each rule, as the specification lists them. *)
Definition fires (application : Application) (r : Rule) : Prop :=
  match r with
  | SkillsLow => num_lt (skillsScore application) (Finite 4)
  | ExperienceLow => num_lt (experienceScore application) (Finite 1.5)
  | EducationLow => num_lt (educationScore application) (Finite 1.5)
  | CompanyMissing =>
      num_eq (company_score application) (Finite 0)
      /\ job_company application <> None
  | CompanyMatched => num_lt (Finite 0) (company_score application)
  | StrongMatch => num_le (Finite 7) (matchScore application)
  | WeakMatch => num_lt (matchScore application) (Finite 5)
  end.

Definition fires_dec (application : Application) (r : Rule)
  : {fires application r} + {~ fires application r}.
Proof.
  destruct r; unfold fires;
    try apply num_lt_dec; try apply num_le_dec.
  destruct (num_eq_dec (company_score application) (Finite 0)) as [H|H].
  - destruct (job_company application) as [c|].
    + left; split; [exact H | discriminate].
    + right; intros [_ K]; apply K; reflexivity.
  - right; intros [K _]; exact (H K).
Defined.

(** [recommend] as the specification words it: the rules that fire, in the
    declared order. *)
Definition recommend_spec (application : Application) : list Rule :=
  filter (fun r => if fires_dec application r then true else false) rules.

(** The test that guards the item of each rule, as the list writes it. *)
Definition rule_test (application : Application) (companyScore : number)
    (r : Rule) : bool :=
  match r with
  | SkillsLow => js_lt (skillsScore application) (Finite 4)
  | ExperienceLow => js_lt (experienceScore application) (Finite 1.5)
  | EducationLow => js_lt (educationScore application) (Finite 1.5)
  | CompanyMissing =>
      js_strict_eq companyScore (Finite 0) && present (job_company application)
  | CompanyMatched => js_gt companyScore (Finite 0)
  | StrongMatch => js_ge (matchScore application) (Finite 7)
  | WeakMatch => js_lt (matchScore application) (Finite 5)
  end.

Definition Rule_eq_dec (r r' : Rule) : {r = r'} + {r <> r'}.
Proof. decide equality. Defined.

Definition bands : list Band := [Excellent; Good; Fair; NeedsImprovement].

(** [sub] occurs in [s]. *)
Definition contains (sub s : string) : bool :=
  match String.index 0 sub s with
  | Some _ => true
  | None => false
  end.

(** Some element of the output carries the colour token of a band. *)
Definition shows_band_color (n : node) : bool :=
  existsb (fun cls => existsb (fun b => contains (band_color b) cls) bands)
    (class_names n).

(** The numbers handed to the progress bars: their values and the stops of
    their gradients, in document order. *)
Definition numbers_of (v : value) : list number :=
  match v with
  | Str _ => []
  | Num x => [x]
  | Tpl ps =>
      flat_map (fun p => match p with PNum x => [x] | PStr _ => [] end) ps
  end.

Definition props_of (n : node) : list (string * value) :=
  match n with
  | Elem _ props _ => props
  | _ => []
  end.

Definition progress_numbers (n : node) : list number :=
  flat_map (fun e => flat_map (fun kv => numbers_of (snd kv)) (props_of e))
    (select "Progress" n).

(** ** Field updates and sample inputs *)

Definition set_companyScore (c : option number) (a : Application) : Application :=
  {| id := id a; matchScore := matchScore a; skillsScore := skillsScore a;
     experienceScore := experienceScore a; educationScore := educationScore a;
     companyScore := c; isProcessed := isProcessed a;
     processingError := processingError a;
     parsedCompanies := parsedCompanies a; job := job a |}.

Definition set_parsedCompanies (l : option (list string)) (a : Application)
  : Application :=
  {| id := id a; matchScore := matchScore a; skillsScore := skillsScore a;
     experienceScore := experienceScore a; educationScore := educationScore a;
     companyScore := companyScore a; isProcessed := isProcessed a;
     processingError := processingError a;
     parsedCompanies := l; job := job a |}.

(** A job at a named company: a target-company context. *)
Definition acme_job : Job :=
  {| title := "Engineer"; company := Some {| name := "Acme" |} |}.

(** A processed application with the given scores. *)
Definition scored_application (total skills experience education : Q)
    (company_field : option number) (j : option Job) : Application :=
  {| id := Finite 1; matchScore := Finite total; skillsScore := Finite skills;
     experienceScore := Finite experience; educationScore := Finite education;
     companyScore := company_field; isProcessed := true;
     processingError := None; parsedCompanies := None; job := j |}.

(** An application still being analysed that already carries an error. *)
Definition pending_application : Application :=
  {| id := Finite 2; matchScore := Finite 9; skillsScore := Finite 5;
     experienceScore := Finite 2; educationScore := Finite 2;
     companyScore := None; isProcessed := false;
     processingError := Some "OCR failed"; parsedCompanies := None;
     job := Some acme_job |}.

(** A processed application whose analysis failed with the given message. *)
Definition failed_application (e : string) : Application :=
  {| id := Finite 3; matchScore := Finite 9; skillsScore := Finite 5;
     experienceScore := Finite 2; educationScore := Finite 2;
     companyScore := None; isProcessed := true;
     processingError := Some e; parsedCompanies := None;
     job := Some acme_job |}.

(** ** Where the band colours are painted *)





(** ** Further readings of the score card *)

(** The elements whose [className] is exactly [cls], in document order. *)
Fixpoint select_class (cls : string) (n : node) : list node :=
  match n with
  | Elem tag props children =>
      match lookup "className" props with
      | Some (Str c) => if String.eqb c cls then [n] else []
      | _ => []
      end ++ flat_map (select_class cls) children
  | _ => []
  end.

(** The bands from the lowest to the highest. *)
Definition band_rank (b : Band) : nat :=
  match b with
  | NeedsImprovement => 0
  | Fair => 1
  | Good => 2
  | Excellent => 3
  end.

(** What the company block shows: the children of its figure and the line
    of matched companies under its progress bar. *)
Definition company_figure (n : node) : list node :=
  flat_map children_of (select_class "text-2xl font-bold text-orange-600" n).

Definition company_line (n : node) : list string :=
  flat_map texts (select_class "text-xs text-orange-600 mt-1 truncate" n).

(** The class of the badge, the class of the large figure of the overall
    score and the gradient of the overall progress bar. *)
Definition badge_classes (n : node) : list (option value) :=
  map (prop "className") (select "Badge" n).

Definition overall_figure_classes (n : node) : list (option value) :=
  map (prop "className")
    (flat_map (fun e => firstn 1 (children_of e))
       (select_class "flex items-center justify-center gap-3 mb-2" n)).

Definition gradients (n : node) : list value :=
  flat_map (fun e => match prop "style.background" e with
                     | Some v => [v]
                     | None => []
                     end)
    (select "Progress" n).

(** ** JavaScript strings

    A string is a sequence of UTF-16 code units; a character of [string]
    stands for one code unit below 256, so [String.length] is [.length].
    The methods below are those of [String.prototype] on such strings. *)

(** One code unit of [toLowerCase]: A-Z and the capital letters of Latin-1
    (U+00C0 to U+00DE, the multiplication sign apart) move down by 32.  Below
    256 the method lowers each code unit on its own; its context-sensitive
    cases (the final sigma) lie outside this range. *)
Definition lower_code_unit (c : ascii) : ascii :=
  let n := nat_of_ascii c in
  if (Nat.leb 65 n && Nat.leb n 90)
     || (Nat.leb 192 n && Nat.leb n 222 && negb (Nat.eqb n 215))
  then ascii_of_nat (n + 32)
  else c.

Fixpoint toLowerCase (s : string) : string :=
  match s with
  | EmptyString => EmptyString
  | String c rest => String (lower_code_unit c) (toLowerCase rest)
  end.

(** White space and line terminators below 256: tab, line feed, vertical
    tab, form feed, carriage return, space and no-break space. *)
Definition is_whitespace (c : ascii) : bool :=
  let n := nat_of_ascii c in
  (Nat.leb 9 n && Nat.leb n 13) || Nat.eqb n 32 || Nat.eqb n 160.

Fixpoint trimStart (s : string) : string :=
  match s with
  | EmptyString => EmptyString
  | String c rest => if is_whitespace c then trimStart rest else s
  end.

Fixpoint trimEnd (s : string) : string :=
  match s with
  | EmptyString => EmptyString
  | String c rest =>
      match trimEnd rest with
      | EmptyString => if is_whitespace c then EmptyString else String c EmptyString
      | kept => String c kept
      end
  end.

Definition trim (s : string) : string := trimEnd (trimStart s).

(** Nothing but white space, the empty string included. *)
Fixpoint blank (s : string) : bool :=
  match s with
  | EmptyString => true
  | String c rest => is_whitespace c && blank rest
  end.

(** [s.startsWith(p)] *)
Fixpoint startsWith (s p : string) {struct p} : bool :=
  match p, s with
  | EmptyString, _ => true
  | String _ _, EmptyString => false
  | String a p', String b s' => Ascii.eqb a b && startsWith s' p'
  end.

(** [s.includes(sub)] *)
Fixpoint includes (s sub : string) : bool :=
  startsWith s sub
  || match s with
     | EmptyString => false
     | String _ rest => includes rest sub
     end.

(** [s] without its first [n] code units. *)
Fixpoint drop (n : nat) (s : string) : string :=
  match n, s with
  | O, _ => s
  | S _, EmptyString => EmptyString
  | S n', String _ rest => drop n' rest
  end.

(** [s.replace(pattern, replacement)] with a string pattern: the first
    occurrence only. *)
Fixpoint replace (s pattern replacement : string) : string :=
  if startsWith s pattern
  then replacement ++ drop (String.length pattern) s
  else match s with
       | EmptyString => EmptyString
       | String c rest => String c (replace rest pattern replacement)
       end.

(** [s.replace(/ /g, replacement)]: every space. *)
Fixpoint replace_spaces (s replacement : string) : string :=
  match s with
  | EmptyString => EmptyString
  | String c rest =>
      (if Ascii.eqb c " " then replacement else String c EmptyString)
      ++ replace_spaces rest replacement
  end.

(** A string in a condition. *)
Definition nonempty (s : string) : bool := negb (String.eqb s "").

(** A value that may be missing: a property of a decoded JSON object is
    absent ([undefined]), [null], or there. *)
Inductive optional (A : Type) : Type :=
| undefined
| null
| defined (a : A).

Arguments undefined {A}.
Arguments null {A}.
Arguments defined {A} a.

(** [String(x)] inside a template literal. *)
Definition interpolate (x : optional string) : string :=
  match x with
  | undefined => "undefined"
  | null => "null"
  | defined s => s
  end.

(** [x || fallback] on an optional string. *)
Definition or_else (x : optional string) (fallback : string) : string :=
  match x with
  | defined s => if nonempty s then s else fallback
  | _ => fallback
  end.

(** ** The jobs page ([Jobs]) *)

Module Jobs.

(** A job as the page reads it; the fields are those the page uses, and a
    field that is there holds a string ([skills] a string or an array). *)
Record JobCompany : Type := {
  name : optional string;
  logoUrl : optional string
}.

Record JobCategory : Type := { category_name : optional string }.

Inductive Skills : Type :=
| SkillsText (s : string)
| SkillsArray (items : list string).

Record Job : Type := {
  id : number;
  title : optional string;
  description : optional string;
  company : optional JobCompany;
  location : optional string;
  city : optional string;
  state : optional string;
  employmentType : optional string;
  salary : optional string;
  experienceLevel : optional string;
  requirements : optional string;
  category : optional JobCategory;
  skills : optional Skills
}.

(** The state [filters]: [search] is always there, the other four only
    after [clearFilters]. *)
Record Filters : Type := {
  search : string;
  jobType : option string;
  experienceLevel_filter : option string;
  location_filter : option string;
  industry : option string
}.

Definition initial_filters : Filters :=
  {| search := ""; jobType := None; experienceLevel_filter := None;
     location_filter := None; industry := None |}.

Definition clearFilters : Filters :=
  {| search := ""; jobType := Some "all"; experienceLevel_filter := Some "all";
     location_filter := Some ""; industry := Some "" |}.

(** [field?.toLowerCase().includes(searchTerm)] *)
Definition field_includes (field : optional string) (searchTerm : string) : bool :=
  match field with
  | defined s => includes (toLowerCase s) searchTerm
  | _ => false
  end.

(** [job.company?.name] *)
Definition company_name (job : Job) : optional string :=
  match company job with
  | defined c => name c
  | _ => undefined
  end.

(** The predicate of the filter of [queryFn]. *)
Definition matches (searchTerm : string) (job : Job) : bool :=
  field_includes (title job) searchTerm
  || field_includes (description job) searchTerm
  || field_includes (company_name job) searchTerm
  || field_includes (location job) searchTerm.

(** A fetched response: its [ok] flag and its body, an array of jobs. *)
Record Response : Type := {
  ok : bool;
  json : list Job
}.

Inductive QueryResult : Type :=
| Rejected (message : string)
| Resolved (jobs : list Job).

(** [queryFn] of the jobs query, given the two responses it awaits. *)
Definition queryFn (filters : Filters) (adminJobsResponse recruiterJobsResponse : Response)
  : QueryResult :=
  if negb (ok adminJobsResponse) || negb (ok recruiterJobsResponse)
  then Rejected "Failed to fetch jobs"
  else
    let adminJobs := json adminJobsResponse in
    let recruiterJobs := json recruiterJobsResponse in
    let allJobs := (adminJobs ++ recruiterJobs)%list in
    if nonempty (search filters) && nonempty (trim (search filters))
    then
      let searchTerm := toLowerCase (search filters) in
      Resolved (filter (matches searchTerm) allJobs)
    else Resolved allJobs.

(** *** The listing *)

(** [index > 0 && index % 5 === 0]: an ad banner goes before this row. *)
Definition ad_before (index : nat) : bool :=
  Nat.ltb 0 index && Nat.eqb (Nat.modulo index 5) 0.

(** [jobs.map((job, index) => ...)] from a given index on: each row is the
    job with the flag of the banner that precedes its card. *)
Fixpoint rows_from (index : nat) (jobs : list Job) : list (bool * Job) :=
  match jobs with
  | [] => []
  | job :: rest => (ad_before index, job) :: rows_from (S index) rest
  end.

(** The three forms of the listing: five placeholders while loading, the
    "No jobs found" card for an empty result, the rows otherwise. *)
Inductive Listing : Type :=
| Placeholders (count : nat)
| NoJobsFound
| Rows (rows : list (bool * Job)).

Definition listing (isLoading : bool) (jobs : list Job) : Listing :=
  if isLoading then Placeholders 5
  else if Nat.eqb (List.length jobs) 0 then NoJobsFound
  else Rows (rows_from 0 jobs).

(** *** The card of a job *)

(** [job.company?.logoUrl && job.company.logoUrl !== "NULL"] *)
Definition logo_url (job : Job) : option string :=
  match company job with
  | defined c =>
      match logoUrl c with
      | defined u => if nonempty u && negb (String.eqb u "NULL") then Some u else None
      | _ => None
      end
  | _ => None
  end.

(** The [src] of the logo: [`/${logoUrl.replace(/ /g, '%20')}`]. *)
Definition logo_src (u : string) : string := "/" ++ replace_spaces u "%20".

(** The logo of the card: the image source, or [None] for the placeholder
    icon. *)
Definition logo (job : Job) : option string :=
  match logo_url job with
  | Some u => Some (logo_src u)
  | None => None
  end.

(** [job.company?.name || 'Company Name'] *)
Definition company_label (job : Job) : string :=
  or_else (company_name job) "Company Name".

(** [job.location || `${job.city}, ${job.state}`] *)
Definition location_label (job : Job) : string :=
  or_else (location job) (interpolate (city job) ++ ", " ++ interpolate (state job)).

(** [job.employmentType?.replace('_', ' ') || 'Full time'] *)
Definition employment_label (job : Job) : string :=
  or_else
    match employmentType job with
    | defined s => defined (replace s "_" " ")
    | _ => undefined
    end
    "Full time".

(** [job.experienceLevel || 'Mid level'] *)
Definition experience_label (job : Job) : string :=
  or_else (experienceLevel job) "Mid level".

(** [job.category?.name || 'Technology'] *)
Definition category_label (job : Job) : string :=
  or_else
    match category job with
    | defined c => category_name c
    | _ => undefined
    end
    "Technology".

(** The skill badges:
    [job.skills && Array.isArray(job.skills) && job.skills.slice(0, 3).map(skill => skill.trim())] *)
Definition skill_badges (job : Job) : list string :=
  match skills job with
  | defined (SkillsArray items) => map trim (firstn 3 items)
  | _ => []
  end.

(** *** The active filters *)

(** [Object.values(filters).some(Boolean)] *)
Definition some_filter (filters : Filters) : bool :=
  nonempty (search filters) || truthy (jobType filters)
  || truthy (experienceLevel_filter filters) || truthy (location_filter filters)
  || truthy (industry filters).

(** [{value && <Badge variant="secondary">label{shown}</Badge>}] *)
Definition filter_badge (label : string) (value : option string)
    (shown : string -> string) : node :=
  match value with
  | Some v =>
      when (nonempty v)
        (Elem "Badge" [("variant", Str "secondary")] [text label; text (shown v)])
  | None => Hole
  end.

(** The card of the active filters. *)
Definition active_filters (filters : Filters) : node :=
  when (some_filter filters)
    (Elem "Card" []
       [ el "CardContent" "p-6"
           [ el "div" "flex flex-wrap gap-2"
               [ filter_badge "Search: " (Some (search filters)) (fun v => v);
                 filter_badge "Type: " (jobType filters)
                   (fun v => replace v "_" " ");
                 filter_badge "Level: " (experienceLevel_filter filters) (fun v => v);
                 filter_badge "Location: " (location_filter filters) (fun v => v);
                 filter_badge "Industry: " (industry filters) (fun v => v) ] ] ]).

(** The heading of the results:
    [filters.search ? `Jobs matching "${filters.search}"` : 'All Jobs'];
    [quote] is the double quote character. *)
Definition quote : string := String (ascii_of_nat 34) EmptyString.

Definition results_heading (filters : Filters) : string :=
  if nonempty (search filters)
  then "Jobs matching " ++ quote ++ search filters ++ quote
  else "All Jobs".

(** The texts of the badges of an output. *)
Definition badge_texts (n : node) : list string :=
  flat_map texts (select "Badge" n).

(** *** Sample data *)

Definition branded (u : string) : Job :=
  {| id := Finite 9; title := defined "Clerk"; description := undefined;
     company := defined {| name := defined "Acme"; logoUrl := defined u |};
     location := defined "Remote"; city := undefined; state := undefined;
     employmentType := undefined; salary := undefined;
     experienceLevel := undefined; requirements := undefined;
     category := undefined; skills := undefined |}.

Definition titled (n : Q) (t : string) : Job :=
  {| id := Finite n; title := defined t; description := null;
     company := undefined; location := undefined;
     city := defined "Austin"; state := defined "TX";
     employmentType := defined "full_time"; salary := undefined;
     experienceLevel := undefined; requirements := undefined;
     category := undefined; skills := undefined |}.

Definition admin_response : Response :=
  {| ok := true; json := [titled 1 "Java Developer"; titled 2 "Nurse"] |}.

Definition recruiter_response : Response :=
  {| ok := true; json := [titled 3 "Senior JAVA Engineer"] |}.

Definition searching (s : string) : Filters :=
  {| search := s; jobType := None; experienceLevel_filter := None;
     location_filter := None; industry := None |}.

End Jobs.

(** ** The form that adds a job ([Jobs], admin actions) *)

Module JobForm.

(** A company of the picker; [Company] is declared in the shared schema,
    and the page reads these three fields of it. *)
Record Company : Type := {
  id : number;
  name : string;
  industry : string
}.

(** The values of the job form, after its [defaultValues]. *)
Record JobValues : Type := {
  title : string;
  description : string;
  requirements : string;
  location : string;
  country : string;
  state : string;
  city : string;
  zipCode : string;
  salary : string;
  employmentType : string;
  experienceLevel : string;
  categoryId : number;
  companyId : number;
  skills : string
}.

Definition defaultValues : JobValues :=
  {| title := ""; description := ""; requirements := ""; location := "";
     country := ""; state := ""; city := ""; zipCode := ""; salary := "";
     employmentType := "full_time"; experienceLevel := "mid";
     categoryId := Finite 1; companyId := Finite 1; skills := "" |}.

(** [{ ...data, companyId }] *)
Definition with_companyId (data : JobValues) (c : number) : JobValues :=
  {| title := title data; description := description data;
     requirements := requirements data; location := location data;
     country := country data; state := state data; city := city data;
     zipCode := zipCode data; salary := salary data;
     employmentType := employmentType data;
     experienceLevel := experienceLevel data; categoryId := categoryId data;
     companyId := c; skills := skills data |}.

(** The state of the dialog. *)
Record State : Type := {
  isAddJobOpen : bool;
  selectedCompany : option Company;
  companySearch : string;
  values : JobValues
}.

(** What a handler does besides setting state. *)
Inductive Effect : Type :=
| Toast (heading description : string) (destructive : bool)
| CreateJob (jobData : JobValues)
| InvalidateJobs.

(** What can happen to the dialog: it opens or closes, the user types in
    the company box, picks a company of the list, edits the form, submits
    values the resolver accepted, cancels; the creation succeeds, or fails
    with an error whose message may be missing. *)
Inductive Event : Type :=
| OpenChange (open : bool)
| TypeCompany (value : string)
| PickCompany (company : Company)
| EditValues (data : JobValues)
| Submit
| Cancel
| CreateSucceeded
| CreateFailed (message : option string).

Definition step (st : State) (e : Event) : State * list Effect :=
  match e with
  | OpenChange open =>
      ({| isAddJobOpen := open; selectedCompany := selectedCompany st;
          companySearch := companySearch st; values := values st |}, [])
  | TypeCompany value =>
      ({| isAddJobOpen := isAddJobOpen st; selectedCompany := selectedCompany st;
          companySearch := value; values := values st |}, [])
  | PickCompany company =>
      ({| isAddJobOpen := isAddJobOpen st; selectedCompany := Some company;
          companySearch := name company; values := values st |}, [])
  | EditValues data =>
      ({| isAddJobOpen := isAddJobOpen st; selectedCompany := selectedCompany st;
          companySearch := companySearch st; values := data |}, [])
  | Submit =>
      match selectedCompany st with
      | None =>
          (st, [Toast "Company required" "Please select a company for this job" true])
      | Some company =>
          (st, [CreateJob (with_companyId (values st) (id company))])
      end
  | Cancel =>
      ({| isAddJobOpen := false; selectedCompany := None;
          companySearch := companySearch st; values := defaultValues |}, [])
  | CreateSucceeded =>
      ({| isAddJobOpen := false; selectedCompany := None;
          companySearch := companySearch st; values := defaultValues |},
       [Toast "Job created successfully" "The job posting has been created" false;
        InvalidateJobs])
  | CreateFailed message =>
      (st, [Toast "Error creating job"
              (match message with
               | Some m => if nonempty m then m else "Failed to create job posting"
               | None => "Failed to create job posting"
               end)
              true])
  end.

(** A run of events: the final state and all effects, in order. *)
Fixpoint run (st : State) (events : list Event) : State * list Effect :=
  match events with
  | [] => (st, [])
  | e :: rest =>
      let (st', effects) := step st e in
      let (st'', effects') := run st' rest in
      (st'', (effects ++ effects')%list)
  end.

(** Events that only edit: typing, editing the form, opening the dialog. *)
Definition edits_only (e : Event) : bool :=
  match e with
  | OpenChange _ | TypeCompany _ | EditValues _ => true
  | _ => false
  end.

Definition initial : State :=
  {| isAddJobOpen := false; selectedCompany := None; companySearch := "";
     values := defaultValues |}.

Definition acme : Company :=
  {| id := Finite 42; name := "Acme"; industry := "Tools" |}.

End JobForm.

(** ** The sign-in page ([Auth]) *)

Module Auth.

Record AuthFormData : Type := {
  email : string;
  password : string;
  firstName : option string;
  lastName : option string;
  userType : option string;
  confirmPassword : option string
}.

(** [keyof AuthFormData] *)
Inductive Field : Type :=
| Email | Password | FirstName | LastName | UserType | ConfirmPassword.

(** [urlParams.get(key) || fallback] *)
Definition param_or (param : option string) (fallback : string) : string :=
  match param with
  | Some s => if nonempty s then s else fallback
  | None => fallback
  end.

Definition plan_of (param : option string) : string := param_or param "free".

(** The initial [formData]. *)
Definition initial_formData (plan : string) : AuthFormData :=
  {| email := ""; password := ""; firstName := Some ""; lastName := Some "";
     userType :=
       Some (if String.eqb plan "recruiter" then "recruiter"
             else if String.eqb plan "client" then "client"
             else "job_seeker");
     confirmPassword := Some "" |}.

(** [setFormData(prev => ({ ...prev, [field]: value }))] *)
Definition handleInputChange (field : Field) (value : string)
    (prev : AuthFormData) : AuthFormData :=
  {| email := match field with Email => value | _ => email prev end;
     password := match field with Password => value | _ => password prev end;
     firstName := match field with FirstName => Some value | _ => firstName prev end;
     lastName := match field with LastName => Some value | _ => lastName prev end;
     userType := match field with UserType => Some value | _ => userType prev end;
     confirmPassword :=
       match field with ConfirmPassword => Some value | _ => confirmPassword prev end |}.

(** The body posted to [/api/register]. *)
Record RegisterBody : Type := {
  body_email : string;
  body_password : string;
  body_firstName : option string;
  body_lastName : option string;
  body_userType : option string;
  subscriptionPlan : string
}.

Inductive SubmitType : Type := LoginForm | RegisterForm.

Inductive Effect : Type :=
| Toast (heading description : string) (destructive : bool)
| PostRegister (body : RegisterBody)
| PostLogin (login_email login_password : string)
| Log (label detail : string)
| SetLocation (path : string).

(** [registerMutation.mutate(data)]: the request of its [mutationFn]. *)
Definition register_request (data : AuthFormData) (plan : string) : Effect :=
  PostRegister
    {| body_email := email data; body_password := password data;
       body_firstName := firstName data; body_lastName := lastName data;
       body_userType := userType data; subscriptionPlan := plan |}.

(** [handleSubmit(e, type)], after [e.preventDefault()]. *)
Definition handleSubmit (formData : AuthFormData) (plan : string)
    (type : SubmitType) : list Effect :=
  match type with
  | RegisterForm =>
      if negb (match confirmPassword formData with
               | Some c => String.eqb (password formData) c
               | None => false
               end)
      then [Toast "Passwords don't match"
              "Please make sure your passwords match." true]
      else if Nat.ltb (String.length (password formData)) 6
      then [Toast "Password too short"
              "Password must be at least 6 characters long." true]
      else [register_request formData plan]
  | LoginForm =>
      [Log "Submitting login for:" (email formData);
       PostLogin (email formData) (password formData)]
  end.

(** [onSuccess] of the registration. *)
Definition register_onSuccess (plan : string) : list Effect :=
  [Toast "Account created!" "Welcome to PingJob! Your free trial has started." false;
   SetLocation (if String.eqb plan "recruiter"
                then "/checkout?plan=recruiter" else "/dashboard")].

Definition getPlanDescription (plan : string) : string :=
  if String.eqb plan "recruiter"
  then "You'll start with a 14-day free trial of Recruiter Pro ($49/month)"
  else if String.eqb plan "client"
  then "Enterprise plan - Custom pricing based on your needs"
  else "Free plan - Get started at no cost".

(** The notice under the heading: [{plan !== "free" && <p>...</p>}]. *)
Definition plan_notice (plan : string) : node :=
  when (negb (String.eqb plan "free"))
    (el "p" "mt-2 text-center text-sm text-gray-600"
       [ text (getPlanDescription plan) ]).

(** The label of the submit button of the registration form. *)
Definition register_button (isPending : bool) (plan : string) : node :=
  if isPending
  then Elem "Fragment" []
         [ el "Loader2" "mr-2 h-4 w-4 animate-spin" [];
           text "Creating account..." ]
  else text (if String.eqb plan "recruiter"
             then "Start Free Trial" else "Create Account").

Definition sample_form : AuthFormData :=
  {| email := "ann@example.com"; password := "hunter22";
     firstName := Some "Ann"; lastName := Some "Lee";
     userType := Some "job_seeker"; confirmPassword := Some "hunter22" |}.

End Auth.

(** ** Comparisons: the tests of the code decide the order of the values *)

Lemma Qlt_bool_iff (a b : Q) : Qlt_bool a b = true <-> a < b.
Proof.
  unfold Qlt_bool. rewrite negb_true_iff.
  split; intro H.
  - apply Qnot_le_lt. intro K. apply Qle_bool_iff in K. congruence.
  - destruct (Qle_bool b a) eqn:E; [|reflexivity].
    apply Qle_bool_iff in E. exfalso. exact (Qlt_not_le _ _ H E).
Qed.

Lemma js_le_iff (x y : number) : js_le x y = true <-> num_le x y.
Proof.
  destruct x as [| | |a], y as [| | |b]; simpl;
    try (split; [discriminate | intros []]); try tauto.
  apply Qle_bool_iff.
Qed.

Lemma js_lt_iff (x y : number) : js_lt x y = true <-> num_lt x y.
Proof.
  destruct x as [| | |a], y as [| | |b]; simpl;
    try (split; [discriminate | intros []]); try tauto.
  apply Qlt_bool_iff.
Qed.

Lemma js_ge_iff (x y : number) : js_ge x y = true <-> num_le y x.
Proof. apply js_le_iff. Qed.

Lemma js_gt_iff (x y : number) : js_gt x y = true <-> num_lt y x.
Proof. apply js_lt_iff. Qed.

Lemma js_strict_eq_iff (x y : number) : js_strict_eq x y = true <-> num_eq x y.
Proof.
  destruct x as [| | |a], y as [| | |b]; simpl;
    try (split; [discriminate | intros []]); try tauto.
  apply Qeq_bool_iff.
Qed.

Lemma js_ge_false_iff (x y : number) : js_ge x y = false <-> ~ num_le y x.
Proof. rewrite <- js_ge_iff. destruct (js_ge x y); intuition congruence. Qed.

Lemma num_lt_not_le (x y : number) : num_lt x y -> ~ num_le y x.
Proof.
  destruct x as [| | |a], y as [| | |b]; simpl; try tauto.
  apply Qlt_not_le.
Qed.

Lemma num_le_trans (x y z : number) : num_le x y -> num_le y z -> num_le x z.
Proof.
  destruct x as [| | |a], y as [| | |b], z as [| | |c]; simpl; try tauto.
  apply Qle_trans.
Qed.

(** Within a range a number is finite, so the order is total there. *)
Lemma in_range_lt_or_le (lo hi : Q) (x : number) (c : Q) :
  in_range lo hi x -> num_lt x (Finite c) <-> ~ num_le (Finite c) x.
Proof.
  destruct x as [| | |a]; simpl; try tauto.
  intros _. split; [apply Qlt_not_le | apply Qnot_le_lt].
Qed.

(** ** The dispatch of the component *)

Lemma ResumeScoreCard_pending (a : Application) :
  isProcessed a = false -> ResumeScoreCard a = pending_view.
Proof. intro H. unfold ResumeScoreCard. rewrite H. reflexivity. Qed.

Lemma ResumeScoreCard_failed (a : Application) :
  isProcessed a = true -> truthy (processingError a) = true ->
  ResumeScoreCard a = failed_view (processingError a).
Proof. intros H K. unfold ResumeScoreCard. rewrite H, K. reflexivity. Qed.

Lemma ResumeScoreCard_scored (a : Application) :
  is_scored a ->
  ResumeScoreCard a
  = scored_view a (company_score a)
      (match parsedCompanies a with Some l => l | None => [] end).
Proof. intros [H K]. unfold ResumeScoreCard. rewrite H, K. reflexivity. Qed.

Lemma truthy_Some (e : string) : truthy (Some e) = true <-> e <> "".
Proof.
  simpl. rewrite negb_true_iff. split; intro H.
  - intro K. subst e. discriminate.
  - apply String.eqb_neq. exact H.
Qed.


(** ** What each presentation shows *)

Lemma select_if (t : string) (c : bool) (n1 n2 : node) :
  select t (if c then n1 else n2) = if c then select t n1 else select t n2.
Proof. destruct c; reflexivity. Qed.

Lemma select_when (t : string) (c : bool) (n : node) :
  select t (when c n) = if c then select t n else [].
Proof. destruct c; reflexivity. Qed.

Lemma if_same {A : Type} (c : bool) (x : A) : (if c then x else x) = x.
Proof. destruct c; reflexivity. Qed.

Lemma flat_map_if {A B : Type} (f : A -> list B) (c : bool) (l1 l2 : list A) :
  flat_map f (if c then l1 else l2) = if c then flat_map f l1 else flat_map f l2.
Proof. destruct c; reflexivity. Qed.

Lemma map_if {A B : Type} (f : A -> B) (c : bool) (l1 l2 : list A) :
  map f (if c then l1 else l2) = if c then map f l1 else map f l2.
Proof. destruct c; reflexivity. Qed.

(** [select] returns elements of the tag asked for, and nothing else. *)
Lemma select_sound (t : string) (n e : node) :
  In e (select t n) -> exists props children, e = Elem t props children.
Proof.
  induction n as [v| |tag props children IH] using node_ind;
    cbn [select]; try (intros []).
  rewrite in_app_iff. intros [H|H].
  - destruct (String.eqb_spec tag t) as [->|_]; [|destruct H].
    destruct H as [<-|[]]. eauto.
  - apply in_flat_map in H. destruct H as [c [Hc He]].
    rewrite Forall_forall in IH. exact (IH c Hc He).
Qed.

(** Push an observation through the literal part of a view. *)
Ltac observe :=
  repeat (cbn [select texts prop lookup flat_map map app
                 String.eqb Ascii.eqb Bool.eqb el text];
          rewrite ?select_if, ?select_when, ?flat_map_app, ?map_app,
            ?flat_map_if, ?map_if, ?if_same, ?app_nil_r).

Lemma select_scored_view (t : string) (a : Application) (c : number)
    (l : list string) :
  String.eqb "Card" t = false -> String.eqb "CardContent" t = false ->
  select t (scored_view a c l)
  = (select t (card_header a)
     ++ select t (overall_score (matchScore a))
     ++ select t (score_breakdown (skillsScore a) (experienceScore a)
                    (educationScore a) c l)
     ++ select t (recommendations a c)
     ++ select t (qualification_status (matchScore a)))%list.
Proof.
  intros H1 H2. unfold scored_view, el.
  cbn [select flat_map]. rewrite H1, H2, !app_nil_r. reflexivity.
Qed.

Lemma select_card_header (t : string) (a : Application) :
  In t ["Badge"; "li"; "Fragment"; "Progress"] -> select t (card_header a) = [].
Proof.
  intros [<-|[<-|[<-|[<-|[]]]]]; unfold card_header;
    destruct (job a) as [[jt [jc|]]|]; observe; reflexivity.
Qed.

Lemma select_recommendations (t : string) (a : Application) (c : number) :
  In t ["Badge"; "Fragment"; "Progress"; "CardTitle"] ->
  select t (recommendations a c) = [].
Proof.
  intros [<-|[<-|[<-|[<-|[]]]]]; unfold recommendations, recommendation_items;
    observe; reflexivity.
Qed.

Lemma select_qualification_status (t : string) (m : number) :
  In t ["Badge"; "li"; "Progress"; "CardTitle"] ->
  select t (qualification_status m) = [].
Proof.
  intros [<-|[<-|[<-|[<-|[]]]]]; unfold qualification_status;
    observe; reflexivity.
Qed.

Lemma select_overall_score (t : string) (m : number) :
  In t ["li"; "Fragment"; "CardTitle"] -> select t (overall_score m) = [].
Proof.
  intros [<-|[<-|[<-|[]]]]; unfold overall_score; observe; reflexivity.
Qed.

Lemma select_score_breakdown (t : string) (s e d c : number) (l : list string) :
  In t ["Badge"; "li"; "Fragment"; "CardTitle"] ->
  select t (score_breakdown s e d c l) = [].
Proof.
  intros [<-|[<-|[<-|[<-|[]]]]]; unfold score_breakdown; observe; reflexivity.
Qed.

Ltac in_list := cbn [In]; tauto.

(** The verdict of the score card. *)
Lemma shown_verdict_scored (a : Application) (c : number) (l : list string) :
  shown_verdict (scored_view a c l)
  = [if js_ge (matchScore a) (Finite 5)
     then verdict_text Qualified else verdict_text BelowThreshold].
Proof.
  unfold shown_verdict.
  rewrite select_scored_view by reflexivity.
  rewrite select_card_header, select_overall_score, select_score_breakdown,
    select_recommendations by in_list.
  unfold qualification_status. observe.
  destruct (js_ge (matchScore a) (Finite 5)); reflexivity.
Qed.

(** The band badge of the score card. *)
Lemma shown_bands_scored (a : Application) (c : number) (l : list string) :
  shown_bands (scored_view a c l) = [getScoreLabel (matchScore a)].
Proof.
  unfold shown_bands.
  rewrite select_scored_view by reflexivity.
  rewrite select_card_header, select_score_breakdown,
    select_recommendations, select_qualification_status by in_list.
  unfold overall_score. observe. reflexivity.
Qed.

(** The list items of the score card, rule by rule. *)
Lemma shown_recommendations_scored (a : Application) (c : number)
    (l : list string) :
  shown_recommendations (scored_view a c l)
  = ((if js_lt (skillsScore a) (Finite 4) then [message SkillsLow] else [])
    ++ (if js_lt (experienceScore a) (Finite 1.5) then [message ExperienceLow] else [])
    ++ (if js_lt (educationScore a) (Finite 1.5) then [message EducationLow] else [])
    ++ (if js_strict_eq c (Finite 0) && present (job_company a)
        then [message CompanyMissing] else [])
    ++ (if js_gt c (Finite 0) then [message CompanyMatched] else [])
    ++ (if js_ge (matchScore a) (Finite 7) then [message StrongMatch] else [])
    ++ (if js_lt (matchScore a) (Finite 5) then [message WeakMatch] else []))%list.
Proof.
  unfold shown_recommendations.
  rewrite select_scored_view by reflexivity.
  rewrite select_card_header, select_overall_score, select_score_breakdown,
    select_qualification_status by in_list.
  unfold recommendations, recommendation_items. observe. reflexivity.
Qed.

(** The five progress bars of the score card. *)
Lemma progress_values_scored (a : Application) (c : number) (l : list string) :
  progress_values (scored_view a c l)
  = [ Some (Num (percent (matchScore a) 12));
      Some (Num (percent (skillsScore a) 6));
      Some (Num (percent (experienceScore a) 2));
      Some (Num (percent (educationScore a) 2));
      Some (Num (if js_gt c (Finite 0) then Finite 100 else Finite 0)) ].
Proof.
  unfold progress_values.
  rewrite select_scored_view by reflexivity.
  rewrite select_card_header, select_recommendations,
    select_qualification_status by in_list.
  unfold overall_score, score_breakdown. observe. reflexivity.
Qed.

Lemma state_tag_scored (a : Application) (c : number) (l : list string) :
  state_tag (scored_view a c l) = Some Scored.
Proof.
  unfold state_tag.
  rewrite select_scored_view by reflexivity.
  unfold card_header. observe. reflexivity.
Qed.

Lemma state_tag_failed (e : option string) : state_tag (failed_view e) = Some Failed.
Proof. reflexivity. Qed.

Lemma state_tag_pending : state_tag pending_view = Some Pending.
Proof. reflexivity. Qed.

(** ** The bands *)

Lemma dec_bool {P : Prop} (d : {P} + {~ P}) (b : bool) :
  (b = true <-> P) -> (if d then true else false) = b.
Proof.
  intros H. destruct d as [p|np], b; try reflexivity.
  - symmetry. apply H. exact p.
  - exfalso. apply np, H. reflexivity.
Qed.

Lemma dec_if {P : Prop} {A : Type} (d : {P} + {~ P}) (b : bool) (x y : A) :
  (b = true <-> P) -> (if d then x else y) = (if b then x else y).
Proof.
  intros H. destruct d as [p|np], b; try reflexivity.
  - apply H in p. discriminate.
  - exfalso. apply np, H. reflexivity.
Qed.

Lemma getScoreLabel_band (score : number) :
  getScoreLabel score = band_label (band_spec score).
Proof.
  unfold getScoreLabel, band_spec.
  rewrite !(dec_if (num_le_dec _ score) (js_ge score _)) by apply js_ge_iff.
  destruct (js_ge score (Finite 8)), (js_ge score (Finite 6)),
    (js_ge score (Finite 4)); reflexivity.
Qed.

Lemma getScoreColor_band (score : number) :
  getScoreColor score = band_color (band_spec score).
Proof.
  unfold getScoreColor, band_spec.
  rewrite !(dec_if (num_le_dec _ score) (js_ge score _)) by apply js_ge_iff.
  destruct (js_ge score (Finite 8)), (js_ge score (Finite 6)),
    (js_ge score (Finite 4)); reflexivity.
Qed.

Lemma getProgressColor_band (score : number) :
  getProgressColor score = band_progress_color (band_spec score).
Proof.
  unfold getProgressColor, band_spec.
  rewrite !(dec_if (num_le_dec _ score) (js_ge score _)) by apply js_ge_iff.
  destruct (js_ge score (Finite 8)), (js_ge score (Finite 6)),
    (js_ge score (Finite 4)); reflexivity.
Qed.

(** The band of a score, by its position against the three cut points. *)
Lemma band_spec_cases (score : number) :
  (num_le (Finite 8) score -> band_spec score = Excellent)
  /\ (num_le (Finite 6) score -> ~ num_le (Finite 8) score -> band_spec score = Good)
  /\ (num_le (Finite 4) score -> ~ num_le (Finite 6) score -> band_spec score = Fair)
  /\ (~ num_le (Finite 4) score -> band_spec score = NeedsImprovement).
Proof.
  unfold band_spec.
  destruct (num_le_dec (Finite 8) score) as [H8|H8],
    (num_le_dec (Finite 6) score) as [H6|H6],
    (num_le_dec (Finite 4) score) as [H4|H4];
    repeat split; intros; try reflexivity; try contradiction;
    exfalso;
    first [ apply H6; apply (num_le_trans _ (Finite 8)); [simpl; lra | assumption]
          | apply H4; apply (num_le_trans _ (Finite 8)); [simpl; lra | assumption]
          | apply H4; apply (num_le_trans _ (Finite 6)); [simpl; lra | assumption] ].
Qed.

Lemma band_label_inj (b b' : Band) : band_label b = band_label b' -> b = b'.
Proof. destruct b, b'; simpl; intro H; try reflexivity; discriminate H. Qed.

(** ** The qualification gate *)

Lemma qualification_spec (m : number) :
  (if js_ge m (Finite 5) then verdict_text Qualified else verdict_text BelowThreshold)
  = verdict_text (qualifies_spec m).
Proof.
  unfold qualifies_spec.
  rewrite (dec_if (num_le_dec _ m) (js_ge m _)) by apply js_ge_iff.
  destruct (js_ge m (Finite 5)); reflexivity.
Qed.

(** ** The recommendation rules *)

Lemma message_inj (r r' : Rule) : message r = message r' -> r = r'.
Proof. destruct r, r'; simpl; intro H; try reflexivity; discriminate H. Qed.

Lemma shown_recommendations_filter (a : Application) (c : number)
    (l : list string) :
  shown_recommendations (scored_view a c l)
  = map message (filter (rule_test a c) rules).
Proof.
  rewrite shown_recommendations_scored.
  unfold rules. cbn [filter rule_test].
  destruct (js_lt (skillsScore a) (Finite 4)),
    (js_lt (experienceScore a) (Finite 1.5)),
    (js_lt (educationScore a) (Finite 1.5)),
    (js_strict_eq c (Finite 0) && present (job_company a)),
    (js_gt c (Finite 0)),
    (js_ge (matchScore a) (Finite 7)),
    (js_lt (matchScore a) (Finite 5)); reflexivity.
Qed.

Lemma present_iff {A : Type} (o : option A) : present o = true <-> o <> None.
Proof. destruct o; simpl; split; congruence. Qed.

Lemma rule_test_fires (a : Application) (r : Rule) :
  rule_test a (company_score a) r = true <-> fires a r.
Proof.
  destruct r; unfold rule_test, fires.
  - apply js_lt_iff.
  - apply js_lt_iff.
  - apply js_lt_iff.
  - rewrite andb_true_iff, js_strict_eq_iff, present_iff. reflexivity.
  - apply js_gt_iff.
  - apply js_ge_iff.
  - apply js_lt_iff.
Qed.

Lemma recommend_spec_filter (a : Application) :
  recommend_spec a = filter (rule_test a (company_score a)) rules.
Proof.
  unfold recommend_spec. apply filter_ext. intro r.
  apply dec_bool, rule_test_fires.
Qed.

Lemma NoDup_rules : NoDup rules.
Proof.
  unfold rules.
  repeat (constructor; [cbn [In]; intuition discriminate|]). constructor.
Qed.

Lemma In_shown_recommendations (a : Application) (c : number)
    (l : list string) (r : Rule) :
  In (message r) (shown_recommendations (scored_view a c l))
  <-> rule_test a c r = true.
Proof.
  rewrite shown_recommendations_filter, in_map_iff. split.
  - intros [r' [E H]]. apply message_inj in E. subst r'.
    apply filter_In in H. tauto.
  - intro H. exists r. split; [reflexivity|].
    apply filter_In. split; [|exact H]. destruct r; cbn; tauto.
Qed.

(** ** The qualification verdict *)

(** C1: on a scored application whose matchScore lies in [0,12], the
    qualification status reads "Qualified" exactly when matchScore >= 5 and
    "Below threshold" exactly when matchScore < 5; the bound is inclusive:
    5.0 is Qualified and 4.999 is Below threshold. *)
Theorem C1_qualified_iff_at_least_5 (a : Application) :
  is_scored a -> in_range 0 12 (matchScore a) ->
  shown_verdict (ResumeScoreCard a) = [verdict_text (qualifies_spec (matchScore a))]
  /\ (shown_verdict (ResumeScoreCard a) = [verdict_text Qualified]
      <-> num_le (Finite 5) (matchScore a))
  /\ (shown_verdict (ResumeScoreCard a) = [verdict_text BelowThreshold]
      <-> num_lt (matchScore a) (Finite 5))
  /\ (num_eq (matchScore a) (Finite 5) ->
      shown_verdict (ResumeScoreCard a) = [verdict_text Qualified])
  /\ (num_eq (matchScore a) (Finite 4.999) ->
      shown_verdict (ResumeScoreCard a) = [verdict_text BelowThreshold]).
Proof.
  intros Hs Hr.
  rewrite (ResumeScoreCard_scored a Hs), shown_verdict_scored.
  assert (Hlt : num_lt (matchScore a) (Finite 5) <-> js_ge (matchScore a) (Finite 5) = false).
  { rewrite (in_range_lt_or_le 0 12 _ 5 Hr). symmetry. apply js_ge_false_iff. }
  assert (Hge := js_ge_iff (matchScore a) (Finite 5)).
  split; [f_equal; apply qualification_spec|].
  destruct (matchScore a) as [| | |m]; try contradiction.
  simpl in Hr, Hlt, Hge |- *.
  destruct (Qle_bool 5 m) eqn:E.
  - assert (H5 : 5 <= m) by (apply Hge; reflexivity).
    split; [split; [intros _; exact H5 | reflexivity]|].
    split; [split; [discriminate | intro K; apply Hlt in K; discriminate K]|].
    split; [reflexivity|].
    intro K. exfalso. rewrite K in H5. revert H5. apply Qlt_not_le. reflexivity.
  - assert (H5 : m < 5) by (apply Hlt; reflexivity).
    split; [split; [discriminate | intro K; apply Hge in K; discriminate K]|].
    split; [split; [intros _; exact H5 | reflexivity]|].
    split; [|reflexivity].
    intro K. exfalso. rewrite K in H5. revert H5. apply Qle_not_lt. apply Qle_refl.
Qed.

Lemma C1_qualified_iff_at_least_5_witness :
  is_scored (scored_application 5 2 2 1 None None)
  /\ in_range 0 12 (matchScore (scored_application 5 2 2 1 None None))
  /\ shown_verdict (ResumeScoreCard (scored_application 5 2 2 1 None None))
     = [verdict_text Qualified].
Proof.
  assert (Hs : is_scored (scored_application 5 2 2 1 None None))
    by (split; reflexivity).
  assert (Hr : in_range 0 12 (matchScore (scored_application 5 2 2 1 None None)))
    by (simpl; split; discriminate).
  split; [exact Hs|]. split; [exact Hr|].
  apply (C1_qualified_iff_at_least_5 _ Hs Hr). simpl. reflexivity.
Defined.

(** ** The band of a score *)

(** C2: the band is a total function of the score with the cut points 8, 6
    and 4: at least 8 is Excellent, at least 6 Good, at least 4 Fair, and
    anything else Needs Improvement; 8, 6, 4 and 3.999 fall in the four
    bands in turn; every score has exactly one band, whose label and colour
    token the two functions return. *)
Theorem C2_band_of_score :
  (forall score : number,
      getScoreLabel score = band_label (band_spec score)
      /\ getScoreColor score = band_color (band_spec score)
      /\ (exists! b : Band,
             getScoreLabel score = band_label b
             /\ getScoreColor score = band_color b)
      /\ (num_le (Finite 8) score ->
          getScoreLabel score = "Excellent Match"
          /\ getScoreColor score = "text-green-600 bg-green-100")
      /\ (num_le (Finite 6) score -> ~ num_le (Finite 8) score ->
          getScoreLabel score = "Good Match"
          /\ getScoreColor score = "text-yellow-600 bg-yellow-100")
      /\ (num_le (Finite 4) score -> ~ num_le (Finite 6) score ->
          getScoreLabel score = "Fair Match"
          /\ getScoreColor score = "text-orange-600 bg-orange-100")
      /\ (~ num_le (Finite 4) score ->
          getScoreLabel score = "Needs Improvement"
          /\ getScoreColor score = "text-red-600 bg-red-100"))
  /\ getScoreLabel (Finite 8) = band_label Excellent
  /\ getScoreLabel (Finite 6) = band_label Good
  /\ getScoreLabel (Finite 4) = band_label Fair
  /\ getScoreLabel (Finite 3.999) = band_label NeedsImprovement.
Proof.
  split.
  - intro score.
    rewrite getScoreLabel_band, getScoreColor_band.
    destruct (band_spec_cases score) as (H8 & H6 & H4 & H0).
    split; [reflexivity|]. split; [reflexivity|]. split.
    + exists (band_spec score). split; [split; reflexivity|].
      intros b [E _]. apply band_label_inj. exact E.
    + repeat split; intros;
        first [ rewrite H8 by assumption | rewrite H6 by assumption
              | rewrite H4 by assumption | rewrite H0 by assumption ];
        reflexivity.
  - repeat split; reflexivity.
Qed.

Lemma C2_band_of_score_witness :
  num_le (Finite 6) (Finite 7) /\ ~ num_le (Finite 8) (Finite 7)
  /\ getScoreLabel (Finite 7) = "Good Match"
  /\ getScoreColor (Finite 7) = "text-yellow-600 bg-yellow-100".
Proof.
  assert (H6 : num_le (Finite 6) (Finite 7)) by (simpl; discriminate).
  assert (H8 : ~ num_le (Finite 8) (Finite 7)) by (simpl; intro H; apply H; reflexivity).
  split; [exact H6|]. split; [exact H8|].
  destruct (proj1 C2_band_of_score (Finite 7)) as (_ & _ & _ & _ & HG & _).
  exact (HG H6 H8).
Defined.

(** ** The recommendations *)

(** Distinct rules have distinct messages, so a selection of the rules
    shows no message twice. *)
Lemma NoDup_selected_messages (keep : Rule -> bool) :
  NoDup (map message (filter keep rules)).
Proof.
  apply Injective_map_NoDup.
  - intros r r'. apply message_inj.
  - apply NoDup_filter, NoDup_rules.
Qed.

(** C3: on a scored application the list shows exactly the messages of the
    rules whose predicates hold, each at most once, in the declared order
    of the seven rules; the list depends on nothing but the five scores and
    the presence of a target company, so the same input gives the same
    list. *)
Theorem C3_recommendations_in_declared_order (a : Application) :
  is_scored a ->
  shown_recommendations (ResumeScoreCard a) = map message (recommend_spec a)
  /\ (forall r : Rule, In r (recommend_spec a) <-> fires a r)
  /\ (forall r : Rule,
         In (message r) (shown_recommendations (ResumeScoreCard a)) <-> fires a r)
  /\ NoDup (shown_recommendations (ResumeScoreCard a))
  /\ (forall a' : Application,
         is_scored a' ->
         matchScore a' = matchScore a -> skillsScore a' = skillsScore a ->
         experienceScore a' = experienceScore a ->
         educationScore a' = educationScore a ->
         company_score a' = company_score a ->
         present (job_company a') = present (job_company a) ->
         shown_recommendations (ResumeScoreCard a')
         = shown_recommendations (ResumeScoreCard a)).
Proof.
  intro Hs.
  rewrite (ResumeScoreCard_scored a Hs).
  split; [|split; [|split; [|split]]].
  - rewrite shown_recommendations_filter, recommend_spec_filter. reflexivity.
  - intro r. rewrite recommend_spec_filter, filter_In, rule_test_fires.
    split; [tauto|]. intro H. split; [|exact H]. destruct r; cbn; tauto.
  - intro r. rewrite In_shown_recommendations. apply rule_test_fires.
  - rewrite shown_recommendations_filter.
    apply NoDup_selected_messages.
  - intros a' Hs' Hm Hk He Hd Hc Hj.
    rewrite (ResumeScoreCard_scored a' Hs').
    rewrite !shown_recommendations_scored.
    rewrite Hm, Hk, He, Hd, Hc, Hj. reflexivity.
Qed.

Lemma C3_recommendations_in_declared_order_witness :
  is_scored (scored_application 4 2 1 1 (Some (Finite 0)) (Some acme_job))
  /\ shown_recommendations
       (ResumeScoreCard (scored_application 4 2 1 1 (Some (Finite 0)) (Some acme_job)))
     = map message
         (recommend_spec (scored_application 4 2 1 1 (Some (Finite 0)) (Some acme_job))).
Proof.
  assert (Hs : is_scored (scored_application 4 2 1 1 (Some (Finite 0)) (Some acme_job)))
    by (split; reflexivity).
  split; [exact Hs|].
  exact (proj1 (C3_recommendations_in_declared_order _ Hs)).
Defined.

(** The recommendations of the sample used above, spelled out. *)
Example recommendations_of_weak_application :
  shown_recommendations
    (ResumeScoreCard (scored_application 4 2 1 1 (Some (Finite 0)) (Some acme_job)))
  = map message [SkillsLow; ExperienceLow; EducationLow; CompanyMissing; WeakMatch].
Proof. vm_compute. reflexivity. Qed.

(** ** Rescaling and the sub-scores *)



Lemma progress_numbers_scored (a : Application) (c : number) (l : list string) :
  progress_numbers (scored_view a c l)
  = [ percent (matchScore a) 12; percent (matchScore a) 12;
      percent (matchScore a) 12;
      percent (skillsScore a) 6;
      percent (experienceScore a) 2;
      percent (educationScore a) 2;
      if js_gt c (Finite 0) then Finite 100 else Finite 0 ].
Proof.
  unfold progress_numbers.
  rewrite select_scored_view by reflexivity.
  rewrite select_card_header, select_recommendations,
    select_qualification_status by in_list.
  unfold overall_score, score_breakdown. observe. reflexivity.
Qed.











(** ** The progress ratios *)

Lemma select_pending_view (t : string) :
  In t ["Badge"; "li"; "Fragment"; "Progress"] -> select t pending_view = [].
Proof. intros [<-|[<-|[<-|[<-|[]]]]]; reflexivity. Qed.

Lemma select_failed_view (t : string) (e : option string) :
  In t ["Badge"; "li"; "Fragment"; "Progress"] -> select t (failed_view e) = [].
Proof. intros [<-|[<-|[<-|[<-|[]]]]]; destruct e; reflexivity. Qed.

Lemma percent_in_range (s : number) (d : Q) :
  In d [12; 6; 2] -> in_range 0 d s ->
  in_range 0 1 (js_div s (Finite d)) /\ in_range 0 100 (percent s d).
Proof.
  intros Hd Hr. destruct s as [| | |q]; try contradiction.
  simpl in Hr. destruct Hr as [H0 H1].
  destruct Hd as [<-|[<-|[<-|[]]]]; unfold percent; cbn [js_div js_mul];
    match goal with |- context [Qeq_bool ?d 0] =>
      replace (Qeq_bool d 0) with false by reflexivity end;
    cbn [in_range]; unfold Qdiv;
    change (/ 12) with (1 # 12); change (/ 6) with (1 # 6);
    change (/ 2) with (1 # 2); repeat split; lra.
Qed.

(** C5 (as stated, refuted): nothing is clamped.  An application whose
    matchScore is 24 gets the ratio 2 and the progress value 200. *)
Lemma C5_counterexample :
  is_scored (scored_application 24 6 2 2 None None)
  /\ In (percent (Finite 24) 12)
       (progress_numbers (ResumeScoreCard (scored_application 24 6 2 2 None None)))
  /\ num_eq (js_div (Finite 24) (Finite 12)) (Finite 2)
  /\ num_eq (percent (Finite 24) 12) (Finite 200)
  /\ ~ in_range 0 1 (js_div (Finite 24) (Finite 12))
  /\ ~ in_range 0 100 (percent (Finite 24) 12).
Proof.
  split; [split; reflexivity|].
  split; [left; reflexivity|].
  split; [reflexivity|]. split; [reflexivity|].
  split; intros [_ H]; apply H; reflexivity.
Qed.

(** C5 (amended): every division of the component has a literal divisor,
    12, 6 or 2, so none is by zero; the pending and failed outputs carry no
    ratio at all; and for a score within its range [0, max] the ratio
    score / max lies in [0,1] and the progress value in [0,100].  The company
    progress is 0 or 100.  Scores outside their range are not clamped. *)
Theorem C5_ratios_of_scores_in_range (a : Application) :
  (isProcessed a = false \/ truthy (processingError a) = true ->
   progress_numbers (ResumeScoreCard a) = [])
  /\ (is_scored a ->
      progress_numbers (ResumeScoreCard a)
      = [ js_mul (js_div (matchScore a) (Finite 12)) (Finite 100);
          js_mul (js_div (matchScore a) (Finite 12)) (Finite 100);
          js_mul (js_div (matchScore a) (Finite 12)) (Finite 100);
          js_mul (js_div (skillsScore a) (Finite 6)) (Finite 100);
          js_mul (js_div (experienceScore a) (Finite 2)) (Finite 100);
          js_mul (js_div (educationScore a) (Finite 2)) (Finite 100);
          if js_gt (company_score a) (Finite 0) then Finite 100 else Finite 0 ])
  /\ (forall d : Q, In d [12; 6; 2] -> ~ d == 0)
  /\ (forall (s : number) (d : Q),
         In d [12; 6; 2] -> in_range 0 d s ->
         in_range 0 1 (js_div s (Finite d))
         /\ in_range 0 100 (js_mul (js_div s (Finite d)) (Finite 100)))
  /\ in_range 0 100 (if js_gt (company_score a) (Finite 0)
                     then Finite 100 else Finite 0).
Proof.
  split; [|split; [|split; [|split]]].
  - intros [H|H].
    + rewrite (ResumeScoreCard_pending a H). reflexivity.
    + destruct (isProcessed a) eqn:E.
      * rewrite (ResumeScoreCard_failed a E H). unfold progress_numbers.
        rewrite select_failed_view by in_list. reflexivity.
      * rewrite (ResumeScoreCard_pending a E). reflexivity.
  - intro Hs. rewrite (ResumeScoreCard_scored a Hs).
    apply progress_numbers_scored.
  - intros d [<-|[<-|[<-|[]]]]; discriminate.
  - apply percent_in_range.
  - destruct (js_gt (company_score a) (Finite 0)); simpl; split; discriminate.
Qed.

Lemma C5_ratios_of_scores_in_range_witness :
  in_range 0 12 (Finite 9)
  /\ in_range 0 1 (js_div (Finite 9) (Finite 12))
  /\ in_range 0 100 (js_mul (js_div (Finite 9) (Finite 12)) (Finite 100)).
Proof.
  assert (Hr : in_range 0 12 (Finite 9)) by (simpl; split; discriminate).
  split; [exact Hr|].
  destruct (C5_ratios_of_scores_in_range (scored_application 9 5 2 2 None None))
    as (_ & _ & _ & H & _).
  exact (H (Finite 9) 12 (or_introl eq_refl) Hr).
Defined.

(** ** The pending and the failed presentation *)

(** C6: while isProcessed is false the component returns the pending card,
    whatever the rest of the application holds: no band label or colour, no
    recommendation, no verdict and no progress value appears in it, and no
    score is read: every unprocessed application gets the same output. *)
Theorem C6_pending_reads_no_score (a : Application) :
  isProcessed a = false ->
  ResumeScoreCard a = pending_view
  /\ state_tag (ResumeScoreCard a) = Some Pending
  /\ shown_bands (ResumeScoreCard a) = []
  /\ shows_band_color (ResumeScoreCard a) = false
  /\ shown_recommendations (ResumeScoreCard a) = []
  /\ shown_verdict (ResumeScoreCard a) = []
  /\ progress_numbers (ResumeScoreCard a) = []
  /\ (forall b : Band, ~ In (band_label b) (texts (ResumeScoreCard a)))
  /\ (forall r : Rule, ~ In (message r) (texts (ResumeScoreCard a)))
  /\ (forall v : Verdict, ~ In (verdict_text v) (texts (ResumeScoreCard a)))
  /\ (forall a' : Application,
         isProcessed a' = false -> ResumeScoreCard a' = ResumeScoreCard a).
Proof.
  intro H. rewrite (ResumeScoreCard_pending a H).
  repeat match goal with |- _ /\ _ => split end; try reflexivity.
  - intros b K. destruct b; vm_compute in K; intuition discriminate.
  - intros r K. destruct r; vm_compute in K; intuition discriminate.
  - intros v K. destruct v; vm_compute in K; intuition discriminate.
  - intros a' H'. apply ResumeScoreCard_pending, H'.
Qed.

Lemma C6_pending_reads_no_score_witness :
  isProcessed pending_application = false
  /\ ResumeScoreCard pending_application = pending_view.
Proof.
  split; [reflexivity|].
  exact (proj1 (C6_pending_reads_no_score pending_application eq_refl)).
Defined.

(** C7 (as stated, refuted): a processed application whose processingError
    is the empty string is not null, yet the guard reads it as false and the
    score card is rendered, with its band and its verdict. *)
Lemma C7_counterexample :
  isProcessed (failed_application "") = true
  /\ processingError (failed_application "") <> None
  /\ state_tag (ResumeScoreCard (failed_application "")) = Some Scored
  /\ shown_bands (ResumeScoreCard (failed_application "")) = ["Excellent Match"]
  /\ shown_verdict (ResumeScoreCard (failed_application ""))
     = ["Qualified - Resume meets minimum requirements"].
Proof.
  split; [reflexivity|]. split; [discriminate|].
  repeat split; vm_compute; reflexivity.
Qed.

(** C7 (amended): for a processed application whose processingError is a
    non-empty string, the component returns the failed card: its description
    is the error string itself, unchanged, and no band label or colour, no
    recommendation, no verdict and no progress value appears; the output
    depends on the error string alone. *)
Theorem C7_failed_shows_error_verbatim (a : Application) (e : string) :
  isProcessed a = true -> processingError a = Some e -> e <> "" ->
  ResumeScoreCard a = failed_view (Some e)
  /\ state_tag (ResumeScoreCard a) = Some Failed
  /\ flat_map texts (select "CardDescription" (ResumeScoreCard a)) = [e]
  /\ shown_bands (ResumeScoreCard a) = []
  /\ shows_band_color (ResumeScoreCard a) = false
  /\ shown_recommendations (ResumeScoreCard a) = []
  /\ shown_verdict (ResumeScoreCard a) = []
  /\ progress_numbers (ResumeScoreCard a) = []
  /\ (forall a' : Application,
         isProcessed a' = true -> processingError a' = Some e ->
         ResumeScoreCard a' = ResumeScoreCard a).
Proof.
  intros Hp He Hne.
  assert (Ht : truthy (Some e) = true) by (apply truthy_Some; exact Hne).
  assert (Hv : ResumeScoreCard a = failed_view (Some e)).
  { rewrite <- He. apply ResumeScoreCard_failed; [exact Hp|].
    rewrite He. exact Ht. }
  rewrite Hv.
  repeat match goal with |- _ /\ _ => split end; try reflexivity.
  intros a' Hp' He'. rewrite <- He'.
  apply ResumeScoreCard_failed; [exact Hp'|]. rewrite He'. exact Ht.
Qed.

Lemma C7_failed_shows_error_verbatim_witness :
  isProcessed (failed_application "OCR failed") = true
  /\ processingError (failed_application "OCR failed") = Some "OCR failed"
  /\ "OCR failed" <> ""
  /\ flat_map texts
       (select "CardDescription" (ResumeScoreCard (failed_application "OCR failed")))
     = ["OCR failed"].
Proof.
  assert (Hne : "OCR failed" <> "") by discriminate.
  split; [reflexivity|]. split; [reflexivity|]. split; [exact Hne|].
  destruct (C7_failed_shows_error_verbatim (failed_application "OCR failed")
              "OCR failed" eq_refl eq_refl Hne) as (_ & _ & H & _).
  exact H.
Defined.

(** ** The two company rules *)

Lemma num_eq_0_not_positive (c : number) :
  num_eq c (Finite 0) -> ~ num_lt (Finite 0) c.
Proof.
  destruct c as [| | |q]; simpl; try tauto.
  intros E H. rewrite E in H. revert H. apply Qlt_irrefl.
Qed.

(** C8: no output carries both company recommendations: "highlight
    experience with similar companies" (rule 4, companyScore equal to 0 with
    a target company) and the positive message (rule 5, companyScore above
    0) never appear together. *)
Theorem C8_company_rules_exclusive (a : Application) :
  ~ (In (message CompanyMissing) (shown_recommendations (ResumeScoreCard a))
     /\ In (message CompanyMatched) (shown_recommendations (ResumeScoreCard a))).
Proof.
  intros [H4 H5].
  destruct (isProcessed a) eqn:Hp.
  - destruct (truthy (processingError a)) eqn:Ht.
    + rewrite (ResumeScoreCard_failed a Hp Ht) in H4.
      unfold shown_recommendations in H4.
      rewrite select_failed_view in H4 by in_list. exact H4.
    + rewrite (ResumeScoreCard_scored a (conj Hp Ht)) in H4, H5.
      apply In_shown_recommendations in H4, H5.
      cbn [rule_test] in H4, H5.
      apply andb_true_iff in H4. destruct H4 as [H4 _].
      apply js_strict_eq_iff in H4. apply js_gt_iff in H5.
      exact (num_eq_0_not_positive _ H4 H5).
  - rewrite (ResumeScoreCard_pending a Hp) in H4. exact H4.
Qed.

(** ** The dispatch on the state *)

Lemma state_tag_ResumeScoreCard (a : Application) :
  state_tag (ResumeScoreCard a)
  = Some (if negb (isProcessed a) then Pending
          else if truthy (processingError a) then Failed else Scored).
Proof.
  unfold ResumeScoreCard.
  destruct (isProcessed a); cbn [negb]; [|reflexivity].
  destruct (truthy (processingError a)).
  - apply state_tag_failed.
  - apply state_tag_scored.
Qed.

(** C9 (as stated, refuted): the three states do not split on whether
    processingError is null.  A processed application whose processingError
    is the empty string carries an error that is not null, yet it gets the
    score card, not the failed card. *)
Lemma C9_counterexample :
  isProcessed (failed_application "") = true
  /\ processingError (failed_application "") <> None
  /\ state_tag (ResumeScoreCard (failed_application "")) = Some Scored
  /\ state_tag (ResumeScoreCard (failed_application "")) <> Some Failed.
Proof.
  split; [reflexivity|]. split; [discriminate|].
  split; [vm_compute; reflexivity | vm_compute; discriminate].
Qed.

(** C9 (amended): the pending check comes first: an unprocessed application
    gets the pending card even when it carries a processingError.  Every
    input falls in exactly one of the three states: Pending exactly when
    isProcessed is false, Failed exactly when isProcessed is true and
    processingError is a non-empty string, Scored exactly when isProcessed
    is true and processingError is absent or the empty string; and each
    state shows its own card. *)
Theorem C9_pending_before_failed (a : Application) :
  (isProcessed a = false -> ResumeScoreCard a = pending_view)
  /\ (state_tag (ResumeScoreCard a) = Some Pending <-> isProcessed a = false)
  /\ (state_tag (ResumeScoreCard a) = Some Failed
      <-> isProcessed a = true
          /\ exists e : string, processingError a = Some e /\ e <> "")
  /\ (state_tag (ResumeScoreCard a) = Some Scored
      <-> isProcessed a = true
          /\ (processingError a = None \/ processingError a = Some ""))
  /\ (exists s : State, state_tag (ResumeScoreCard a) = Some s)
  /\ (forall e : string,
         isProcessed a = true -> processingError a = Some e -> e <> "" ->
         ResumeScoreCard a = failed_view (Some e))
  /\ (isProcessed a = true ->
      processingError a = None \/ processingError a = Some "" ->
      ResumeScoreCard a
      = scored_view a (company_score a)
          (match parsedCompanies a with Some l => l | None => [] end)).
Proof.
  rewrite state_tag_ResumeScoreCard.
  split; [apply ResumeScoreCard_pending|].
  destruct (isProcessed a) eqn:Hp; cbn [negb].
  - destruct (processingError a) as [e|] eqn:He; cbn [truthy].
    + destruct (String.eqb_spec e "") as [->|Hne]; cbn [negb].
      * split; [split; discriminate|].
        split; [split; [discriminate | intros (_ & e & H & K); congruence]|].
        split; [split; [intros _; auto | reflexivity]|].
        split; [eauto|].
        split; [intros e _ H K; congruence|].
        intros _ _. apply ResumeScoreCard_scored. split; [exact Hp|].
        rewrite He. reflexivity.
      * split; [split; discriminate|].
        split; [split; [intros _; eauto | reflexivity]|].
        split; [split; [discriminate | intros (_ & [H|H]); congruence]|].
        split; [eauto|].
        split; [|intros _ [H|H]; congruence].
        intros e' _ H K. injection H as <-.
        rewrite <- He. apply ResumeScoreCard_failed; [exact Hp|].
        rewrite He. apply truthy_Some. exact K.
    + split; [split; discriminate|].
      split; [split; [discriminate | intros (_ & e & H & _); discriminate H]|].
      split; [split; [intros _; auto | reflexivity]|].
      split; [eauto|].
      split; [intros e _ H; discriminate H|].
      intros _ _. apply ResumeScoreCard_scored. split; [exact Hp|].
      rewrite He. reflexivity.
  - split; [split; [reflexivity | reflexivity]|].
    split; [split; [discriminate | intros (H & _); discriminate H]|].
    split; [split; [discriminate | intros (H & _); discriminate H]|].
    split; [eauto|].
    split; [intros e H; discriminate H | intro H; discriminate H].
Qed.

Lemma C9_pending_before_failed_witness :
  isProcessed pending_application = false
  /\ processingError pending_application = Some "OCR failed"
  /\ ResumeScoreCard pending_application = pending_view.
Proof.
  split; [reflexivity|]. split; [reflexivity|].
  exact (proj1 (C9_pending_before_failed pending_application) eq_refl).
Defined.

(** ** The defaults of the optional fields *)

Lemma ResumeScoreCard_default_companyScore (a : Application) :
  companyScore a = None ->
  ResumeScoreCard a = ResumeScoreCard (set_companyScore (Some (Finite 0)) a).
Proof.
  intro H. unfold ResumeScoreCard, set_companyScore. cbn. rewrite H.
  reflexivity.
Qed.

Lemma ResumeScoreCard_default_parsedCompanies (a : Application) :
  parsedCompanies a = None ->
  ResumeScoreCard a = ResumeScoreCard (set_parsedCompanies (Some []) a).
Proof.
  intro H. unfold ResumeScoreCard, set_parsedCompanies. cbn. rewrite H.
  reflexivity.
Qed.

(** C10: an absent companyScore is read as 0 and an absent parsedCompanies
    as the empty list: the output is the one of the application with the
    field set to that value.  So without a companyScore the positive company
    message never appears and, on a scored application, the company progress
    is 0 and the "similar companies" recommendation appears exactly when the
    job has a company. *)
Theorem C10_absent_fields_take_defaults (a : Application) :
  (companyScore a = None ->
   ResumeScoreCard a = ResumeScoreCard (set_companyScore (Some (Finite 0)) a))
  /\ (parsedCompanies a = None ->
      ResumeScoreCard a = ResumeScoreCard (set_parsedCompanies (Some []) a))
  /\ (companyScore a = None ->
      ~ In (message CompanyMatched) (shown_recommendations (ResumeScoreCard a)))
  /\ (companyScore a = None -> is_scored a ->
      nth_error (progress_values (ResumeScoreCard a)) 4
      = Some (Some (Num (Finite 0)))
      /\ (In (message CompanyMissing) (shown_recommendations (ResumeScoreCard a))
          <-> job_company a <> None)).
Proof.
  split; [apply ResumeScoreCard_default_companyScore|].
  split; [apply ResumeScoreCard_default_parsedCompanies|].
  assert (Hc : companyScore a = None -> company_score a = Finite 0)
    by (unfold company_score; intros ->; reflexivity).
  split.
  - intros Hn H5.
    destruct (isProcessed a) eqn:Hp.
    + destruct (truthy (processingError a)) eqn:Ht.
      * rewrite (ResumeScoreCard_failed a Hp Ht) in H5.
        unfold shown_recommendations in H5.
        rewrite select_failed_view in H5 by in_list. exact H5.
      * rewrite (ResumeScoreCard_scored a (conj Hp Ht)) in H5.
        apply In_shown_recommendations in H5.
        rewrite (Hc Hn) in H5. discriminate H5.
    + rewrite (ResumeScoreCard_pending a Hp) in H5. exact H5.
  - intros Hn Hs. rewrite (ResumeScoreCard_scored a Hs), (Hc Hn). split.
    + rewrite progress_values_scored. reflexivity.
    + rewrite In_shown_recommendations. cbn [rule_test].
      replace (js_strict_eq (Finite 0) (Finite 0)) with true by reflexivity.
      cbn [andb]. apply present_iff.
Qed.

Lemma C10_absent_fields_take_defaults_witness :
  companyScore (scored_application 6 2 2 2 None (Some acme_job)) = None
  /\ is_scored (scored_application 6 2 2 2 None (Some acme_job))
  /\ nth_error
       (progress_values (ResumeScoreCard (scored_application 6 2 2 2 None (Some acme_job))))
       4
     = Some (Some (Num (Finite 0))).
Proof.
  assert (Hs : is_scored (scored_application 6 2 2 2 None (Some acme_job)))
    by (split; reflexivity).
  split; [reflexivity|]. split; [exact Hs|].
  destruct (C10_absent_fields_take_defaults
              (scored_application 6 2 2 2 None (Some acme_job)))
    as (_ & _ & _ & H).
  exact (proj1 (H eq_refl Hs)).
Defined.

(** ** Two worked score cards *)

(** Skills 2, experience 2, education 2, company 0, total 6, no job: the
    card is qualified, in the Good band, and recommends the skills only. *)
Example score_card_total_6 :
  let card := ResumeScoreCard (scored_application 6 2 2 2 (Some (Finite 0)) None) in
  shown_verdict card = [verdict_text Qualified]
  /\ shown_bands card = [band_label Good]
  /\ shown_recommendations card = [message SkillsLow].
Proof. vm_compute. repeat split. Qed.

(** Skills 5, experience 1.8, education 1.8, company 2, total 10.6, for a
    job at a company: qualified, Excellent, with the two positive messages
    in their order. *)
Example score_card_total_10_6 :
  let card :=
    ResumeScoreCard
      (scored_application 10.6 5 1.8 1.8 (Some (Finite 2)) (Some acme_job)) in
  shown_verdict card = [verdict_text Qualified]
  /\ shown_bands card = [band_label Excellent]
  /\ shown_recommendations card = [message CompanyMatched; message StrongMatch]
  /\ progress_values card
     = [ Some (Num (percent (Finite 10.6) 12)); Some (Num (percent (Finite 5) 6));
         Some (Num (percent (Finite 1.8) 2)); Some (Num (percent (Finite 1.8) 2));
         Some (Num (Finite 100)) ].
Proof. vm_compute. repeat split. Qed.

From Stdlib Require Import PeanoNat.

(** ** The score card as a whole *)

Lemma band_spec_iff (score : number) :
  (band_spec score = Excellent <-> num_le (Finite 8) score)
  /\ (band_spec score = Good
      <-> num_le (Finite 6) score /\ ~ num_le (Finite 8) score)
  /\ (band_spec score = Fair
      <-> num_le (Finite 4) score /\ ~ num_le (Finite 6) score)
  /\ (band_spec score = NeedsImprovement <-> ~ num_le (Finite 4) score).
Proof.
  destruct (band_spec_cases score) as (H8 & H6 & H4 & H0).
  assert (L86 : num_le (Finite 8) score -> num_le (Finite 6) score)
    by (apply num_le_trans; simpl; lra).
  assert (L64 : num_le (Finite 6) score -> num_le (Finite 4) score)
    by (apply num_le_trans; simpl; lra).
  destruct (num_le_dec (Finite 8) score) as [D8|D8].
  - rewrite (H8 D8). intuition discriminate.
  - destruct (num_le_dec (Finite 6) score) as [D6|D6].
    + rewrite (H6 D6 D8). intuition discriminate.
    + destruct (num_le_dec (Finite 4) score) as [D4|D4].
      * rewrite (H4 D4 D6). intuition discriminate.
      * rewrite (H0 D4). intuition discriminate.
Qed.

Lemma shown_bands_band (a : Application) (b : Band) :
  is_scored a ->
  shown_bands (ResumeScoreCard a) = [band_label b] <-> band_spec (matchScore a) = b.
Proof.
  intro Hs. rewrite (ResumeScoreCard_scored a Hs), shown_bands_scored.
  rewrite getScoreLabel_band. split.
  - intro H. injection H as H. apply band_label_inj. exact H.
  - intros ->. reflexivity.
Qed.

Lemma shown_verdict_qualified (a : Application) :
  is_scored a ->
  shown_verdict (ResumeScoreCard a) = [verdict_text Qualified]
  <-> num_le (Finite 5) (matchScore a).
Proof.
  intro Hs. rewrite (ResumeScoreCard_scored a Hs), shown_verdict_scored.
  rewrite <- js_ge_iff.
  destruct (js_ge (matchScore a) (Finite 5)); simpl;
    split; intro H; try reflexivity; discriminate H.
Qed.

Lemma shown_verdict_below (a : Application) :
  is_scored a ->
  shown_verdict (ResumeScoreCard a) = [verdict_text BelowThreshold]
  <-> ~ num_le (Finite 5) (matchScore a).
Proof.
  intro Hs. rewrite (ResumeScoreCard_scored a Hs), shown_verdict_scored.
  rewrite <- js_ge_false_iff.
  destruct (js_ge (matchScore a) (Finite 5)); simpl;
    split; intro H; try reflexivity; discriminate H.
Qed.

(** X1: On every score card the band and the verdict agree: an Excellent or a
    Good badge comes with "Qualified", a Needs Improvement badge with "Below
    threshold"; only the Fair band straddles the threshold. *)
Theorem band_agrees_with_verdict (a : Application) :
  is_scored a ->
  (shown_bands (ResumeScoreCard a) = [band_label Excellent]
   \/ shown_bands (ResumeScoreCard a) = [band_label Good] ->
   shown_verdict (ResumeScoreCard a) = [verdict_text Qualified])
  /\ (shown_bands (ResumeScoreCard a) = [band_label NeedsImprovement] ->
      shown_verdict (ResumeScoreCard a) = [verdict_text BelowThreshold])
  /\ (shown_bands (ResumeScoreCard a) = [band_label Fair] ->
      (shown_verdict (ResumeScoreCard a) = [verdict_text Qualified]
       <-> num_le (Finite 5) (matchScore a))
      /\ num_le (Finite 4) (matchScore a)
      /\ num_lt (matchScore a) (Finite 6)).
Proof.
  intro Hs.
  rewrite !(shown_bands_band a _ Hs), (shown_verdict_qualified a Hs),
    (shown_verdict_below a Hs).
  destruct (band_spec_iff (matchScore a)) as (E8 & E6 & E4 & E0).
  rewrite E8, E6, E4, E0.
  assert (L85 : num_le (Finite 8) (matchScore a) -> num_le (Finite 5) (matchScore a))
    by (apply num_le_trans; simpl; lra).
  assert (L65 : num_le (Finite 6) (matchScore a) -> num_le (Finite 5) (matchScore a))
    by (apply num_le_trans; simpl; lra).
  assert (L54 : num_le (Finite 5) (matchScore a) -> num_le (Finite 4) (matchScore a))
    by (apply num_le_trans; simpl; lra).
  split; [tauto|]. split; [tauto|].
  intros [H4 H6]. split; [tauto|]. split; [exact H4|].
  destruct (matchScore a) as [| | |m]; simpl in *; try tauto.
  apply Qnot_le_lt. exact H6.
Qed.

Lemma band_agrees_with_verdict_witness :
  is_scored (scored_application 6.5 3 2 1.5 None None)
  /\ shown_bands (ResumeScoreCard (scored_application 6.5 3 2 1.5 None None))
     = [band_label Good]
  /\ shown_verdict (ResumeScoreCard (scored_application 6.5 3 2 1.5 None None))
     = [verdict_text Qualified].
Proof.
  assert (Hs : is_scored (scored_application 6.5 3 2 1.5 None None))
    by (split; reflexivity).
  assert (Hb : shown_bands (ResumeScoreCard (scored_application 6.5 3 2 1.5 None None))
               = [band_label Good]) by (vm_compute; reflexivity).
  split; [exact Hs|]. split; [exact Hb|].
  exact (proj1 (band_agrees_with_verdict _ Hs) (or_intror Hb)).
Defined.

(** X2: A higher overall score never gets a lower band, nor loses the
    qualification: bands and verdict are monotone in matchScore. *)
Theorem higher_score_never_ranks_lower (a a' : Application) :
  is_scored a -> is_scored a' ->
  num_le (matchScore a) (matchScore a') ->
  (forall b b' : Band,
      shown_bands (ResumeScoreCard a) = [band_label b] ->
      shown_bands (ResumeScoreCard a') = [band_label b'] ->
      (band_rank b <= band_rank b')%nat)
  /\ (shown_verdict (ResumeScoreCard a) = [verdict_text Qualified] ->
      shown_verdict (ResumeScoreCard a') = [verdict_text Qualified]).
Proof.
  intros Hs Hs' Hle. split.
  - intros b b'. rewrite (shown_bands_band a b Hs), (shown_bands_band a' b' Hs').
    intros Hb Hb'.
    destruct (band_spec_iff (matchScore a)) as (E8 & E6 & E4 & E0).
    destruct (band_spec_iff (matchScore a')) as (E8' & E6' & E4' & E0').
    assert (T : forall c, num_le (Finite c) (matchScore a) ->
                          num_le (Finite c) (matchScore a'))
      by (intros c H; exact (num_le_trans _ _ _ H Hle)).
    destruct b, b'; simpl; try lia; exfalso;
      first [ apply E8 in Hb | apply E6 in Hb | apply E4 in Hb ];
      first [ apply E6' in Hb' | apply E4' in Hb' | apply E0' in Hb' ];
      first [ destruct Hb as [Hb _] | idtac ];
      apply T in Hb;
      assert (L86 : num_le (Finite 6) (Finite 8)) by (simpl; lra);
      assert (L64 : num_le (Finite 4) (Finite 6)) by (simpl; lra);
      assert (L84 : num_le (Finite 4) (Finite 8)) by (simpl; lra);
      intuition eauto using num_le_trans.
  - rewrite (shown_verdict_qualified a Hs), (shown_verdict_qualified a' Hs').
    intro H. exact (num_le_trans _ _ _ H Hle).
Qed.

Lemma higher_score_never_ranks_lower_witness :
  num_le (matchScore (scored_application 5 2 2 1 None None))
         (matchScore (scored_application 9 5 2 2 None None))
  /\ shown_verdict (ResumeScoreCard (scored_application 9 5 2 2 None None))
     = [verdict_text Qualified].
Proof.
  assert (Hs : is_scored (scored_application 5 2 2 1 None None))
    by (split; reflexivity).
  assert (Hs' : is_scored (scored_application 9 5 2 2 None None))
    by (split; reflexivity).
  assert (Hle : num_le (matchScore (scored_application 5 2 2 1 None None))
                       (matchScore (scored_application 9 5 2 2 None None)))
    by (simpl; discriminate).
  split; [exact Hle|].
  apply (proj2 (higher_score_never_ranks_lower _ _ Hs Hs' Hle)).
  vm_compute. reflexivity.
Defined.

Lemma In_recommendation (a : Application) (r : Rule) :
  is_scored a ->
  In (message r) (shown_recommendations (ResumeScoreCard a)) <-> fires a r.
Proof.
  intro Hs. rewrite (ResumeScoreCard_scored a Hs), In_shown_recommendations.
  apply rule_test_fires.
Qed.

(** X3: The two messages about the overall match follow the verdict: "Great
    match!" is shown only on a qualified card whose band is Good or
    Excellent, "Consider tailoring your resume" only on a card below the
    threshold, never both; and a card below the threshold always carries the
    tailoring advice, unless its matchScore is not a number. *)
Theorem match_messages_follow_verdict (a : Application) :
  is_scored a ->
  (In (message StrongMatch) (shown_recommendations (ResumeScoreCard a)) ->
   shown_verdict (ResumeScoreCard a) = [verdict_text Qualified]
   /\ (shown_bands (ResumeScoreCard a) = [band_label Good]
       \/ shown_bands (ResumeScoreCard a) = [band_label Excellent]))
  /\ (In (message WeakMatch) (shown_recommendations (ResumeScoreCard a)) ->
      shown_verdict (ResumeScoreCard a) = [verdict_text BelowThreshold])
  /\ ~ (In (message StrongMatch) (shown_recommendations (ResumeScoreCard a))
        /\ In (message WeakMatch) (shown_recommendations (ResumeScoreCard a)))
  /\ (matchScore a <> NaN ->
      shown_verdict (ResumeScoreCard a) = [verdict_text BelowThreshold] ->
      In (message WeakMatch) (shown_recommendations (ResumeScoreCard a)))
  /\ (matchScore a = NaN ->
      shown_verdict (ResumeScoreCard a) = [verdict_text BelowThreshold]
      /\ shown_bands (ResumeScoreCard a) = [band_label NeedsImprovement]
      /\ ~ In (message StrongMatch) (shown_recommendations (ResumeScoreCard a))
      /\ ~ In (message WeakMatch) (shown_recommendations (ResumeScoreCard a))).
Proof.
  intro Hs.
  rewrite !(In_recommendation a _ Hs), !(shown_bands_band a _ Hs),
    (shown_verdict_qualified a Hs), (shown_verdict_below a Hs).
  destruct (band_spec_iff (matchScore a)) as (E8 & E6 & E4 & E0).
  rewrite E8, E6, E0. cbn [fires].
  assert (L75 : num_le (Finite 7) (matchScore a) -> num_le (Finite 5) (matchScore a))
    by (apply num_le_trans; simpl; lra).
  assert (L76 : num_le (Finite 7) (matchScore a) -> num_le (Finite 6) (matchScore a))
    by (apply num_le_trans; simpl; lra).
  assert (L54 : num_le (Finite 5) (matchScore a) -> num_le (Finite 4) (matchScore a))
    by (apply num_le_trans; simpl; lra).
  assert (N := num_lt_not_le (matchScore a) (Finite 5)).
  split; [|split; [|split; [|split]]].
  - intro H. split; [auto|].
    destruct (num_le_dec (Finite 8) (matchScore a)); auto.
  - exact N.
  - intros [H7 H5]. exact (N H5 (L75 H7)).
  - intros Hn H. destruct (matchScore a) as [| | |m]; simpl in *;
      try tauto; try congruence.
    apply Qnot_le_lt. exact H.
  - intros ->. simpl. tauto.
Qed.

Lemma match_messages_follow_verdict_witness :
  is_scored (scored_application 8 5 2 1 None None)
  /\ In (message StrongMatch)
       (shown_recommendations (ResumeScoreCard (scored_application 8 5 2 1 None None)))
  /\ shown_verdict (ResumeScoreCard (scored_application 8 5 2 1 None None))
     = [verdict_text Qualified].
Proof.
  assert (Hs : is_scored (scored_application 8 5 2 1 None None))
    by (split; reflexivity).
  assert (Hi : In (message StrongMatch)
                 (shown_recommendations
                    (ResumeScoreCard (scored_application 8 5 2 1 None None))))
    by (vm_compute; auto).
  split; [exact Hs|]. split; [exact Hi|].
  exact (proj1 (proj1 (match_messages_follow_verdict _ Hs) Hi)).
Defined.

Lemma length_if_singleton {A : Type} (c : bool) (x : A) :
  List.length (if c then [x] else []) = if c then 1%nat else 0%nat.
Proof. destruct c; reflexivity. Qed.

Lemma recommendations_bounded (a : Application) :
  (List.length (shown_recommendations (ResumeScoreCard a)) <= 5)%nat.
Proof.
  destruct (isProcessed a) eqn:Hp.
  - destruct (truthy (processingError a)) eqn:Ht.
    + rewrite (ResumeScoreCard_failed a Hp Ht). unfold shown_recommendations.
      rewrite select_failed_view by in_list. simpl. lia.
    + rewrite (ResumeScoreCard_scored a (conj Hp Ht)).
      rewrite shown_recommendations_scored.
      rewrite !length_app, !length_if_singleton.
      assert (C : js_strict_eq (company_score a) (Finite 0)
                  && present (job_company a) = true ->
                  js_gt (company_score a) (Finite 0) = false).
      { intro H. apply andb_true_iff in H. destruct H as [H _].
        apply js_strict_eq_iff in H.
        destruct (js_gt (company_score a) (Finite 0)) eqn:G; [|reflexivity].
        apply js_gt_iff in G. exfalso.
        exact (num_eq_0_not_positive _ H G). }
      assert (M : js_ge (matchScore a) (Finite 7) = true ->
                  js_lt (matchScore a) (Finite 5) = false).
      { intro H. apply js_ge_iff in H.
        destruct (js_lt (matchScore a) (Finite 5)) eqn:G; [|reflexivity].
        apply js_lt_iff in G. exfalso.
        apply (num_lt_not_le _ _ G).
        apply (num_le_trans _ (Finite 7)); [simpl; lra | exact H]. }
      destruct (js_lt (skillsScore a) (Finite 4)),
        (js_lt (experienceScore a) (Finite 1.5)),
        (js_lt (educationScore a) (Finite 1.5)),
        (js_strict_eq (company_score a) (Finite 0) && present (job_company a)),
        (js_gt (company_score a) (Finite 0)),
        (js_ge (matchScore a) (Finite 7)),
        (js_lt (matchScore a) (Finite 5));
        simpl; try lia;
        try (specialize (C eq_refl); discriminate C);
        try (specialize (M eq_refl); discriminate M).
  - rewrite (ResumeScoreCard_pending a Hp). simpl. lia.
Qed.

(** X4: No output lists more than five recommendations: of the seven rules the
    two company rules exclude each other and so do the two match rules, and
    the pending and the failed card list none.  Five is reached. *)
Theorem at_most_five_recommendations :
  (forall a : Application,
      (List.length (shown_recommendations (ResumeScoreCard a)) <= 5)%nat)
  /\ (exists a : Application,
         List.length (shown_recommendations (ResumeScoreCard a)) = 5%nat).
Proof.
  split; [exact recommendations_bounded|].
  exists (scored_application 4 2 1 1 (Some (Finite 0)) (Some acme_job)).
  vm_compute. reflexivity.
Qed.

(** ** The company block and the band colours *)

Lemma select_class_if (cls : string) (c : bool) (n1 n2 : node) :
  select_class cls (if c then n1 else n2)
  = if c then select_class cls n1 else select_class cls n2.
Proof. destruct c; reflexivity. Qed.

Lemma select_class_when (cls : string) (c : bool) (n : node) :
  select_class cls (when c n) = if c then select_class cls n else [].
Proof. destruct c; reflexivity. Qed.

Ltac observe_class :=
  repeat (cbn [select_class select texts prop lookup children_of flat_map map
                 app firstn append String.eqb Ascii.eqb Bool.eqb el text];
          rewrite ?select_class_if, ?select_class_when, ?select_if, ?select_when,
            ?flat_map_app, ?map_app, ?flat_map_if, ?map_if, ?if_same, ?app_nil_r).

Lemma select_class_scored_view (cls : string) (a : Application) (c : number)
    (l : list string) :
  String.eqb "w-full" cls = false -> String.eqb "space-y-6" cls = false ->
  select_class cls (scored_view a c l)
  = (select_class cls (card_header a)
     ++ select_class cls (overall_score (matchScore a))
     ++ select_class cls (score_breakdown (skillsScore a) (experienceScore a)
                            (educationScore a) c l)
     ++ select_class cls (recommendations a c)
     ++ select_class cls (qualification_status (matchScore a)))%list.
Proof.
  intros H1 H2. unfold scored_view, el.
  cbn [select_class lookup flat_map].
  change (String.eqb "className" "className") with true. cbn iota.
  rewrite H1, H2, !app_nil_r. reflexivity.
Qed.

Lemma select_class_card_header (cls : string) (a : Application) :
  In cls ["text-2xl font-bold text-orange-600";
          "text-xs text-orange-600 mt-1 truncate";
          "flex items-center justify-center gap-3 mb-2"] ->
  select_class cls (card_header a) = [].
Proof.
  intros [<-|[<-|[<-|[]]]]; unfold card_header;
    destruct (job a) as [[jt [jc|]]|]; observe_class; reflexivity.
Qed.

Lemma select_class_recommendations (cls : string) (a : Application) (c : number) :
  In cls ["text-2xl font-bold text-orange-600";
          "text-xs text-orange-600 mt-1 truncate";
          "flex items-center justify-center gap-3 mb-2"] ->
  select_class cls (recommendations a c) = [].
Proof.
  intros [<-|[<-|[<-|[]]]]; unfold recommendations, recommendation_items;
    observe_class; reflexivity.
Qed.

Lemma select_class_qualification_status (cls : string) (m : number) :
  In cls ["text-2xl font-bold text-orange-600";
          "text-xs text-orange-600 mt-1 truncate";
          "flex items-center justify-center gap-3 mb-2"] ->
  select_class cls (qualification_status m) = [].
Proof.
  intros [<-|[<-|[<-|[]]]]; unfold qualification_status;
    observe_class; reflexivity.
Qed.

Lemma select_class_overall_score (cls : string) (m : number) :
  In cls ["text-2xl font-bold text-orange-600";
          "text-xs text-orange-600 mt-1 truncate"] ->
  select_class cls (overall_score m) = [].
Proof.
  intros [<-|[<-|[]]]; unfold overall_score;
    rewrite getScoreColor_band; destruct (band_spec m);
    observe_class; reflexivity.
Qed.

Lemma select_class_score_breakdown (s e d c : number) (l : list string) :
  select_class "flex items-center justify-center gap-3 mb-2"
    (score_breakdown s e d c l) = [].
Proof. unfold score_breakdown. observe_class. reflexivity. Qed.

Lemma company_figure_scored (a : Application) (c : number) (l : list string) :
  company_figure (scored_view a c l)
  = [if js_gt c (Finite 0)
     then Leaf (Tpl [PStr "+"; PNum c]) else Leaf (Num c)].
Proof.
  unfold company_figure.
  rewrite select_class_scored_view by reflexivity.
  rewrite select_class_card_header, select_class_overall_score,
    select_class_recommendations, select_class_qualification_status by in_list.
  unfold score_breakdown. observe_class. reflexivity.
Qed.

Lemma company_line_scored (a : Application) (c : number) (l : list string) :
  company_line (scored_view a c l)
  = if Nat.ltb 0 (List.length l) then [first_two_joined l] else [].
Proof.
  unfold company_line.
  rewrite select_class_scored_view by reflexivity.
  rewrite select_class_card_header, select_class_overall_score,
    select_class_recommendations, select_class_qualification_status by in_list.
  unfold score_breakdown. observe_class. reflexivity.
Qed.

Lemma overall_figure_classes_scored (a : Application) (c : number)
    (l : list string) :
  overall_figure_classes (scored_view a c l)
  = [Some (Str ("text-3xl font-bold px-4 py-2 rounded-lg "
                ++ getScoreColor (matchScore a)))].
Proof.
  unfold overall_figure_classes.
  rewrite select_class_scored_view by reflexivity.
  rewrite select_class_card_header, select_class_score_breakdown,
    select_class_recommendations, select_class_qualification_status by in_list.
  unfold overall_score. rewrite getScoreColor_band.
  destruct (band_spec (matchScore a)); observe_class; reflexivity.
Qed.

Lemma badge_classes_scored (a : Application) (c : number) (l : list string) :
  badge_classes (scored_view a c l) = [Some (Str (getScoreColor (matchScore a)))].
Proof.
  unfold badge_classes.
  rewrite select_scored_view by reflexivity.
  rewrite select_card_header, select_score_breakdown,
    select_recommendations, select_qualification_status by in_list.
  unfold overall_score. observe. reflexivity.
Qed.

Lemma gradients_scored (a : Application) (c : number) (l : list string) :
  gradients (scored_view a c l)
  = [Tpl [ PStr ("linear-gradient(to right, " ++ getProgressColor (matchScore a)
                 ++ " 0%, " ++ getProgressColor (matchScore a) ++ " ");
           PNum (percent (matchScore a) 12);
           PStr "%, #e5e7eb ";
           PNum (percent (matchScore a) 12);
           PStr "%, #e5e7eb 100%)" ]].
Proof.
  unfold gradients.
  rewrite select_scored_view by reflexivity.
  rewrite select_card_header, select_recommendations,
    select_qualification_status by in_list.
  unfold overall_score, score_breakdown. observe. reflexivity.
Qed.

(** X5: The overall score is painted in one band: the label and the class of
    the badge, the class of the large figure and the colour of the progress
    gradient are those of the single band of matchScore. *)
Theorem overall_score_painted_in_one_band (a : Application) :
  is_scored a ->
  exists b : Band,
    b = band_spec (matchScore a)
    /\ shown_bands (ResumeScoreCard a) = [band_label b]
    /\ badge_classes (ResumeScoreCard a) = [Some (Str (band_color b))]
    /\ overall_figure_classes (ResumeScoreCard a)
       = [Some (Str ("text-3xl font-bold px-4 py-2 rounded-lg " ++ band_color b))]
    /\ gradients (ResumeScoreCard a)
       = [Tpl [ PStr ("linear-gradient(to right, " ++ band_progress_color b
                      ++ " 0%, " ++ band_progress_color b ++ " ");
                PNum (percent (matchScore a) 12);
                PStr "%, #e5e7eb ";
                PNum (percent (matchScore a) 12);
                PStr "%, #e5e7eb 100%)" ]].
Proof.
  intro Hs. exists (band_spec (matchScore a)).
  rewrite (ResumeScoreCard_scored a Hs).
  rewrite shown_bands_scored, badge_classes_scored, overall_figure_classes_scored,
    gradients_scored.
  rewrite getScoreLabel_band, getScoreColor_band, getProgressColor_band.
  repeat split; reflexivity.
Qed.

Lemma overall_score_painted_in_one_band_witness :
  is_scored (scored_application 9 5 2 2 None None)
  /\ badge_classes (ResumeScoreCard (scored_application 9 5 2 2 None None))
     = [Some (Str (band_color Excellent))].
Proof.
  assert (Hs : is_scored (scored_application 9 5 2 2 None None))
    by (split; reflexivity).
  split; [exact Hs|].
  destruct (overall_score_painted_in_one_band _ Hs) as (b & Hb & _ & Hc & _).
  rewrite Hc, Hb. reflexivity.
Defined.

(** X6: The company block is of one piece: the figure carries a plus sign
    exactly when the progress bar is full and exactly when the positive
    company message is listed, that is when the company score is above 0;
    otherwise the bare score is shown over an empty bar. *)
Theorem company_block_consistent (a : Application) :
  is_scored a ->
  (num_lt (Finite 0) (company_score a) ->
   company_figure (ResumeScoreCard a)
   = [Leaf (Tpl [PStr "+"; PNum (company_score a)])]
   /\ nth_error (progress_values (ResumeScoreCard a)) 4
      = Some (Some (Num (Finite 100)))
   /\ In (message CompanyMatched) (shown_recommendations (ResumeScoreCard a)))
  /\ (~ num_lt (Finite 0) (company_score a) ->
      company_figure (ResumeScoreCard a) = [Leaf (Num (company_score a))]
      /\ nth_error (progress_values (ResumeScoreCard a)) 4
         = Some (Some (Num (Finite 0)))
      /\ ~ In (message CompanyMatched) (shown_recommendations (ResumeScoreCard a))).
Proof.
  intro Hs.
  rewrite (In_recommendation a _ Hs). cbn [fires].
  rewrite (ResumeScoreCard_scored a Hs), company_figure_scored,
    progress_values_scored. cbn [nth_error].
  rewrite <- js_gt_iff.
  destruct (js_gt (company_score a) (Finite 0)); split; intro H;
    repeat split; try reflexivity; try congruence.
Qed.

Lemma company_block_consistent_witness :
  is_scored (scored_application 9 5 2 2 (Some (Finite 2)) None)
  /\ num_lt (Finite 0) (company_score (scored_application 9 5 2 2 (Some (Finite 2)) None))
  /\ company_figure (ResumeScoreCard (scored_application 9 5 2 2 (Some (Finite 2)) None))
     = [Leaf (Tpl [PStr "+"; PNum (Finite 2)])].
Proof.
  assert (Hs : is_scored (scored_application 9 5 2 2 (Some (Finite 2)) None))
    by (split; reflexivity).
  assert (Hc : num_lt (Finite 0)
                 (company_score (scored_application 9 5 2 2 (Some (Finite 2)) None)))
    by reflexivity.
  split; [exact Hs|]. split; [exact Hc|].
  exact (proj1 (proj1 (company_block_consistent _ Hs) Hc)).
Defined.

(** X7: Under the company bar the card names the matched companies: nothing
    when the list is empty or absent, the single name when there is one,
    and the first two names joined by a comma and a space when there are
    more; a third company is never shown. *)
Theorem company_line_shows_first_two (a : Application) :
  is_scored a ->
  company_line (ResumeScoreCard a)
  = match parsedCompanies a with
    | None | Some [] => []
    | Some [x] => [x]
    | Some (x :: y :: _) => [x ++ ", " ++ y]
    end.
Proof.
  intro Hs. rewrite (ResumeScoreCard_scored a Hs), company_line_scored.
  destruct (parsedCompanies a) as [[|x [|y l]]|]; reflexivity.
Qed.

Lemma company_line_shows_first_two_witness :
  is_scored (set_parsedCompanies (Some ["Acme"; "Globex"; "Initech"])
               (scored_application 9 5 2 2 (Some (Finite 2)) None))
  /\ company_line
       (ResumeScoreCard
          (set_parsedCompanies (Some ["Acme"; "Globex"; "Initech"])
             (scored_application 9 5 2 2 (Some (Finite 2)) None)))
     = ["Acme, Globex"].
Proof.
  assert (Hs : is_scored (set_parsedCompanies (Some ["Acme"; "Globex"; "Initech"])
                            (scored_application 9 5 2 2 (Some (Finite 2)) None)))
    by (split; reflexivity).
  split; [exact Hs|].
  exact (company_line_shows_first_two _ Hs).
Defined.

(** ** String methods *)

Lemma lower_code_unit_idempotent (c : ascii) :
  lower_code_unit (lower_code_unit c) = lower_code_unit c.
Proof. destruct c as [[] [] [] [] [] [] [] []]; reflexivity. Qed.

Lemma is_whitespace_lower (c : ascii) :
  is_whitespace (lower_code_unit c) = is_whitespace c.
Proof. destruct c as [[] [] [] [] [] [] [] []]; reflexivity. Qed.

Lemma toLowerCase_idempotent (s : string) :
  toLowerCase (toLowerCase s) = toLowerCase s.
Proof.
  induction s as [|c s IH]; simpl; [reflexivity|].
  rewrite lower_code_unit_idempotent, IH. reflexivity.
Qed.

Lemma trimStart_blank (s : string) : trimStart s = "" <-> blank s = true.
Proof.
  induction s as [|c s IH]; simpl; [tauto|].
  destruct (is_whitespace c); simpl; [exact IH|].
  split; discriminate.
Qed.

Lemma trimEnd_blank (s : string) : trimEnd s = "" <-> blank s = true.
Proof.
  induction s as [|c s IH]; simpl; [tauto|].
  destruct (trimEnd s) as [|d k].
  - destruct (is_whitespace c); simpl.
    + split; intros _; [apply IH|]; reflexivity.
    + split; discriminate.
  - split; [discriminate|]. intro H. apply andb_true_iff in H.
    destruct H as [_ H]. apply IH in H. discriminate H.
Qed.

Lemma blank_trimStart (s : string) : blank (trimStart s) = blank s.
Proof.
  induction s as [|c s IH]; simpl; [reflexivity|].
  destruct (is_whitespace c) eqn:E; simpl; [exact IH|].
  rewrite E. reflexivity.
Qed.

(** [trim] leaves nothing exactly of the strings of white space. *)
Lemma trim_blank (s : string) : nonempty (trim s) = negb (blank s).
Proof.
  unfold nonempty, trim. rewrite <- (blank_trimStart s).
  destruct (blank (trimStart s)) eqn:E.
  - apply trimEnd_blank in E. rewrite E. reflexivity.
  - destruct (String.eqb_spec (trimEnd (trimStart s)) ""); [|reflexivity].
    apply trimEnd_blank in e. congruence.
Qed.

Lemma blank_toLowerCase (s : string) : blank (toLowerCase s) = blank s.
Proof.
  induction s as [|c s IH]; simpl; [reflexivity|].
  rewrite is_whitespace_lower, IH. reflexivity.
Qed.

Lemma nonempty_toLowerCase (s : string) : nonempty (toLowerCase s) = nonempty s.
Proof. destruct s; reflexivity. Qed.

Lemma startsWith_iff (s p : string) :
  startsWith s p = true <-> exists rest, s = p ++ rest.
Proof.
  revert s. induction p as [|a p IH]; intros s; simpl.
  - split; [intros _; exists s; reflexivity | reflexivity].
  - destruct s as [|b s].
    + split; [discriminate | intros [r H]; discriminate H].
    + rewrite andb_true_iff, IH. split.
      * intros [E [r ->]]. apply Ascii.eqb_eq in E. subst b.
        exists r. reflexivity.
      * intros [r H]. injection H as -> ->. split; [apply Ascii.eqb_refl|].
        exists r. reflexivity.
Qed.

Lemma includes_iff (s sub : string) :
  includes s sub = true <-> exists before after, s = before ++ sub ++ after.
Proof.
  induction s as [|c s IH]; simpl.
  - rewrite orb_false_r, startsWith_iff. split.
    + intros [r H]. exists "", r. exact H.
    + intros [b [r H]]. destruct b; [exists r; exact H | discriminate H].
  - rewrite orb_true_iff, IH, startsWith_iff. split.
    + intros [[r H]|[b [r H]]].
      * exists "", r. exact H.
      * exists (String c b), r. simpl. rewrite H. reflexivity.
    + intros [[|d b] [r H]].
      * left. exists r. exact H.
      * right. simpl in H. injection H as _ H. exists b, r. exact H.
Qed.

Lemma string_append_assoc (a b c : string) : (a ++ b) ++ c = a ++ (b ++ c).
Proof. induction a as [|x a IH]; simpl; [|rewrite IH]; reflexivity. Qed.

(** What contains a string contains everything that string contains. *)
Lemma includes_trans (s t u : string) :
  includes s t = true -> includes t u = true -> includes s u = true.
Proof.
  rewrite !includes_iff. intros [b [r ->]] [b' [r' ->]].
  exists (b ++ b'), (r' ++ r). rewrite !string_append_assoc. reflexivity.
Qed.

Lemma includes_empty (s : string) : includes s "" = true.
Proof. destruct s; reflexivity. Qed.

Lemma blank_append (s t : string) : blank (s ++ t) = blank s && blank t.
Proof.
  induction s as [|c s IH]; simpl; [reflexivity|].
  rewrite IH, andb_assoc. reflexivity.
Qed.

Lemma blank_nonempty_trim (s : string) :
  nonempty s && nonempty (trim s) = negb (blank s).
Proof.
  rewrite trim_blank. destruct s; reflexivity.
Qed.

Lemma filter_narrow {A : Type} (p q : A -> bool) (l : list A) :
  (forall x, p x = true -> q x = true) ->
  filter p (filter q l) = filter p l.
Proof.
  intro H. induction l as [|x l IH]; simpl; [reflexivity|].
  destruct (q x) eqn:Q; simpl.
  - rewrite IH. reflexivity.
  - destruct (p x) eqn:P; [|exact IH].
    apply H in P. congruence.
Qed.

(** ** The search of the jobs page *)

Module JobsFacts.
Import Jobs.

Lemma field_includes_iff (field : optional string) (term : string) :
  field_includes field term = true
  <-> exists s before after,
        field = defined s /\ toLowerCase s = before ++ term ++ after.
Proof.
  destruct field as [| |s]; simpl.
  - split; [discriminate | intros (s & b & r & H & _); discriminate H].
  - split; [discriminate | intros (s & b & r & H & _); discriminate H].
  - rewrite includes_iff. split.
    + intros (b & r & H). exists s, b, r. split; [reflexivity | exact H].
    + intros (s' & b & r & H & K). injection H as <-. exists b, r. exact K.
Qed.

Lemma matches_iff (term : string) (job : Job) :
  matches term job = true
  <-> exists field,
        In field [title job; description job; company_name job; location job]
        /\ exists s before after,
             field = defined s /\ toLowerCase s = before ++ term ++ after.
Proof.
  unfold matches. rewrite !orb_true_iff, !field_includes_iff. split.
  - intros [[[H|H]|H]|H]; eexists; (split; [|exact H]); cbn [In]; tauto.
  - intros (f & [<-|[<-|[<-|[<-|[]]]]] & H); tauto.
Qed.

Lemma queryFn_ok (filters : Filters) (admin recruiter : Response) :
  ok admin = true -> ok recruiter = true ->
  queryFn filters admin recruiter
  = Resolved (if blank (search filters)
              then (json admin ++ json recruiter)%list
              else filter (matches (toLowerCase (search filters)))
                     (json admin ++ json recruiter)).
Proof.
  intros Ha Hr. unfold queryFn. rewrite Ha, Hr. cbn [negb orb].
  rewrite blank_nonempty_trim. destruct (blank (search filters)); reflexivity.
Qed.

(** X8: An empty search, or one of white space only, filters nothing: the query
    returns every admin job followed by every recruiter job; and when either
    response is not ok the query fails whatever the search. *)
Theorem blank_search_returns_all_jobs (filters : Filters)
    (admin recruiter : Response) :
  (ok admin = false \/ ok recruiter = false ->
   queryFn filters admin recruiter = Rejected "Failed to fetch jobs")
  /\ (ok admin = true -> ok recruiter = true ->
      blank (search filters) = true ->
      queryFn filters admin recruiter
      = Resolved (json admin ++ json recruiter)).
Proof.
  split.
  - unfold queryFn. intros [H|H]; rewrite H;
      [|destruct (ok admin)]; reflexivity.
  - intros Ha Hr Hb. rewrite (queryFn_ok _ _ _ Ha Hr), Hb. reflexivity.
Qed.

Lemma blank_search_returns_all_jobs_witness :
  blank (search (searching "  ")) = true
  /\ queryFn (searching "  ") admin_response recruiter_response
     = Resolved [titled 1 "Java Developer"; titled 2 "Nurse";
                 titled 3 "Senior JAVA Engineer"].
Proof.
  split; [reflexivity|].
  exact (proj2 (blank_search_returns_all_jobs (searching "  ") admin_response
                  recruiter_response) eq_refl eq_refl eq_refl).
Defined.

(** X9: A search that is not blank keeps, in their order, exactly the jobs one
    of whose title, description, company name and location contains the
    search, letter case apart; a job with none of these four fields is
    never found. *)
Theorem search_keeps_matching_jobs (filters : Filters)
    (admin recruiter : Response) :
  ok admin = true -> ok recruiter = true ->
  blank (search filters) = false ->
  exists keep : Job -> bool,
    queryFn filters admin recruiter
    = Resolved (filter keep (json admin ++ json recruiter))
    /\ (forall job : Job,
           keep job = true
           <-> exists field,
                 In field [title job; description job; company_name job;
                           location job]
                 /\ exists s before after,
                      field = defined s
                      /\ toLowerCase s
                         = before ++ toLowerCase (search filters) ++ after)
    /\ (forall job : Job,
           (forall s, title job <> defined s) ->
           (forall s, description job <> defined s) ->
           (forall s, company_name job <> defined s) ->
           (forall s, location job <> defined s) ->
           keep job = false).
Proof.
  intros Ha Hr Hb.
  exists (matches (toLowerCase (search filters))).
  split; [rewrite (queryFn_ok _ _ _ Ha Hr), Hb; reflexivity|].
  split; [intro job; apply matches_iff|].
  intros job Ht Hd Hc Hl.
  destruct (matches (toLowerCase (search filters)) job) eqn:E; [|reflexivity].
  apply matches_iff in E.
  destruct E as (f & [<-|[<-|[<-|[<-|[]]]]] & s & _ & _ & H & _);
    exfalso;
    [ exact (Ht _ H) | exact (Hd _ H) | exact (Hc _ H) | exact (Hl _ H) ].
Qed.

Lemma search_keeps_matching_jobs_witness :
  blank (search (searching "Java")) = false
  /\ exists keep : Job -> bool,
       queryFn (searching "Java") admin_response recruiter_response
       = Resolved (filter keep (json admin_response ++ json recruiter_response)).
Proof.
  split; [reflexivity|].
  destruct (search_keeps_matching_jobs (searching "Java") admin_response
              recruiter_response eq_refl eq_refl eq_refl) as (keep & H & _).
  exists keep. exact H.
Defined.

(** The sample search, worked out: both Java jobs, whatever their case. *)
Example search_for_java :
  queryFn (searching "Java") admin_response recruiter_response
  = Resolved [titled 1 "Java Developer"; titled 3 "Senior JAVA Engineer"].
Proof. vm_compute. reflexivity. Qed.

(** X10: The search ignores letter case, and the other filters are not read: two
    filter states whose searches differ by case only give the same result. *)
Theorem search_ignores_case (filters filters' : Filters)
    (admin recruiter : Response) :
  toLowerCase (search filters) = toLowerCase (search filters') ->
  queryFn filters admin recruiter = queryFn filters' admin recruiter.
Proof.
  intro H. unfold queryFn.
  rewrite !blank_nonempty_trim.
  rewrite <- (blank_toLowerCase (search filters)),
    <- (blank_toLowerCase (search filters')), H.
  reflexivity.
Qed.

Lemma search_ignores_case_witness :
  toLowerCase (search (searching "JAVA")) = toLowerCase (search (searching "java"))
  /\ queryFn (searching "JAVA") admin_response recruiter_response
     = queryFn (searching "java") admin_response recruiter_response.
Proof.
  split; [reflexivity|].
  exact (search_ignores_case (searching "JAVA") (searching "java")
           admin_response recruiter_response eq_refl).
Defined.

Lemma includes_not_blank (s sub : string) :
  includes s sub = true -> blank sub = false -> blank s = false.
Proof.
  intros H K. apply includes_iff in H. destruct H as (b & r & ->).
  rewrite !blank_append, K, andb_false_r. reflexivity.
Qed.

(** X11: A search that contains an earlier one narrows its result: when the
    lower-cased new search contains the lower-cased old search, which was not
    blank, the new result is the old result searched again, and no job comes
    back that the old search had dropped. *)
Theorem longer_search_narrows (filters filters' : Filters)
    (admin recruiter : Response) (old_jobs new_jobs : list Job) :
  blank (search filters) = false ->
  includes (toLowerCase (search filters')) (toLowerCase (search filters)) = true ->
  queryFn filters admin recruiter = Resolved old_jobs ->
  queryFn filters' admin recruiter = Resolved new_jobs ->
  new_jobs = filter (matches (toLowerCase (search filters'))) old_jobs
  /\ (forall job, In job new_jobs -> In job old_jobs).
Proof.
  intros Hb I Ho Hn.
  assert (Hb' : blank (search filters') = false).
  { rewrite <- blank_toLowerCase. apply (includes_not_blank _ _ I).
    rewrite blank_toLowerCase. exact Hb. }
  assert (Hok : ok admin = true /\ ok recruiter = true).
  { unfold queryFn in Ho.
    destruct (ok admin), (ok recruiter); try discriminate Ho. tauto. }
  destruct Hok as [Ha Hr].
  rewrite (queryFn_ok _ _ _ Ha Hr), Hb in Ho.
  rewrite (queryFn_ok _ _ _ Ha Hr), Hb' in Hn.
  injection Ho as <-. injection Hn as <-.
  assert (E : filter (matches (toLowerCase (search filters')))
                (filter (matches (toLowerCase (search filters)))
                   (json admin ++ json recruiter))
              = filter (matches (toLowerCase (search filters')))
                  (json admin ++ json recruiter)).
  { apply filter_narrow. intros job H.
    unfold matches in *. rewrite !orb_true_iff in *.
    assert (F : forall f, field_includes f (toLowerCase (search filters')) = true ->
                          field_includes f (toLowerCase (search filters)) = true).
    { intros [| |s]; simpl; try discriminate.
      intro K. exact (includes_trans _ _ _ K I). }
    destruct H as [[[K|K]|K]|K]; apply F in K; tauto. }
  split; [symmetry; exact E|].
  intros job H. rewrite <- E in H. apply filter_In in H. tauto.
Qed.

Lemma longer_search_narrows_witness :
  blank (search (searching "java")) = false
  /\ includes (toLowerCase (search (searching "Java Dev")))
       (toLowerCase (search (searching "java"))) = true
  /\ [titled 1 "Java Developer"]
     = filter (matches (toLowerCase (search (searching "Java Dev"))))
         [titled 1 "Java Developer"; titled 3 "Senior JAVA Engineer"].
Proof.
  split; [reflexivity|]. split; [reflexivity|].
  exact (proj1 (longer_search_narrows (searching "java") (searching "Java Dev")
                  admin_response recruiter_response
                  [titled 1 "Java Developer"; titled 3 "Senior JAVA Engineer"]
                  [titled 1 "Java Developer"]
                  eq_refl eq_refl eq_refl eq_refl)).
Defined.

(** X12: The heading reads the search as typed while the query trims it: an
    empty search is headed "All Jobs" and a search with a visible character
    is headed by its text and filters; a search of white space only is
    headed as a search too, though the query then returns every job. *)
Theorem heading_of_a_blank_search (filters : Filters)
    (admin recruiter : Response) :
  ok admin = true -> ok recruiter = true ->
  (search filters = "" ->
   results_heading filters = "All Jobs"
   /\ queryFn filters admin recruiter = Resolved (json admin ++ json recruiter))
  /\ (blank (search filters) = false ->
      results_heading filters
      = "Jobs matching " ++ quote ++ search filters ++ quote
      /\ queryFn filters admin recruiter
         = Resolved (filter (matches (toLowerCase (search filters)))
                       (json admin ++ json recruiter)))
  /\ (search filters <> "" -> blank (search filters) = true ->
      results_heading filters
      = "Jobs matching " ++ quote ++ search filters ++ quote
      /\ queryFn filters admin recruiter
         = Resolved (json admin ++ json recruiter)).
Proof.
  intros Ha Hr. rewrite (queryFn_ok _ _ _ Ha Hr). unfold results_heading.
  split; [|split].
  - intros ->. split; reflexivity.
  - intro Hb. rewrite Hb. destruct (search filters); [discriminate Hb|].
    split; reflexivity.
  - intros Hne Hb. rewrite Hb. destruct (search filters); [contradiction|].
    split; reflexivity.
Qed.

Lemma heading_of_a_blank_search_witness :
  search (searching "  ") <> "" /\ blank (search (searching "  ")) = true
  /\ queryFn (searching "  ") admin_response recruiter_response
     = Resolved (json admin_response ++ json recruiter_response).
Proof.
  assert (Hne : search (searching "  ") <> "") by discriminate.
  split; [exact Hne|]. split; [reflexivity|].
  destruct (heading_of_a_blank_search (searching "  ") admin_response
              recruiter_response eq_refl eq_refl) as (_ & _ & H).
  exact (proj2 (H Hne eq_refl)).
Defined.

End JobsFacts.

(** ** The listing and the cards of the jobs page *)

Lemma trimStart_head (s : string) :
  trimStart s = ""
  \/ exists c rest, trimStart s = String c rest /\ is_whitespace c = false.
Proof.
  induction s as [|c s IH]; simpl; [left; reflexivity|].
  destruct (is_whitespace c) eqn:E; [exact IH|].
  right. exists c, s. split; [reflexivity | exact E].
Qed.

Lemma trimEnd_idempotent (s : string) : trimEnd (trimEnd s) = trimEnd s.
Proof.
  induction s as [|c s IH]; simpl; [reflexivity|].
  destruct (trimEnd s) as [|d k] eqn:E.
  - destruct (is_whitespace c) eqn:W; simpl; [reflexivity|].
    rewrite W. reflexivity.
  - change (trimEnd (String c (String d k))) with
      (match trimEnd (String d k) with
       | EmptyString => if is_whitespace c then EmptyString else String c EmptyString
       | kept => String c kept
       end).
    rewrite IH. reflexivity.
Qed.

Lemma trimStart_trimEnd (c : ascii) (rest : string) :
  is_whitespace c = false ->
  trimStart (trimEnd (String c rest)) = trimEnd (String c rest).
Proof.
  intro W. simpl. destruct (trimEnd rest); rewrite ?W; simpl; rewrite W;
    reflexivity.
Qed.

(** Trimming twice is trimming once. *)
Lemma trim_idempotent (s : string) : trim (trim s) = trim s.
Proof.
  unfold trim.
  destruct (trimStart_head s) as [E|(c & rest & E & W)]; rewrite E.
  - reflexivity.
  - rewrite (trimStart_trimEnd c rest W). apply trimEnd_idempotent.
Qed.

Lemma or_else_nonempty (x : optional string) (fallback : string) :
  fallback <> "" -> or_else x fallback <> "".
Proof.
  intro H. destruct x as [| |s]; simpl; try exact H.
  destruct s; simpl; [exact H | discriminate].
Qed.

Lemma or_else_defined (x : optional string) (fallback s : string) :
  x = defined s -> s <> "" -> or_else x fallback = s.
Proof. intros -> H. destruct s; simpl; [contradiction | reflexivity]. Qed.

(** Without the pattern at its head or in [before], [replace] copies
    [before] and replaces the occurrence that follows. *)
Lemma replace_first_char (c : ascii) (replacement before after : string) :
  includes before (String c "") = false ->
  replace (before ++ String c after) (String c "") replacement
  = before ++ replacement ++ after.
Proof.
  induction before as [|b before IH]; intro H.
  - simpl. rewrite Ascii.eqb_refl. simpl. reflexivity.
  - simpl in H. apply orb_false_iff in H. destruct H as [H1 H2].
    cbn [append replace startsWith].
    destruct (Ascii.eqb c b) eqn:E.
    + destruct before; simpl in H1; discriminate H1.
    + cbn [andb]. rewrite (IH H2). reflexivity.
Qed.

Lemma replace_absent (pattern_char : ascii) (replacement s : string) :
  includes s (String pattern_char "") = false ->
  replace s (String pattern_char "") replacement = s.
Proof.
  induction s as [|b s IH]; intro H; [reflexivity|].
  simpl in H. apply orb_false_iff in H. destruct H as [H1 H2].
  cbn [replace startsWith].
  destruct (Ascii.eqb pattern_char b) eqn:E.
  - destruct s; simpl in H1; discriminate H1.
  - cbn [andb]. rewrite (IH H2). reflexivity.
Qed.

Lemma replace_spaces_no_space (s : string) :
  includes (replace_spaces s "%20") " " = false.
Proof.
  induction s as [|c s IH]; [reflexivity|].
  cbn [replace_spaces]. destruct (Ascii.eqb c " ") eqn:E.
  - simpl. exact IH.
  - cbn [append includes startsWith]. rewrite IH.
    rewrite Ascii.eqb_sym, E. reflexivity.
Qed.

Lemma replace_spaces_absent (s : string) :
  includes s " " = false -> replace_spaces s "%20" = s.
Proof.
  induction s as [|c s IH]; intro H; [reflexivity|].
  cbn [includes startsWith] in H. apply orb_false_iff in H.
  destruct H as [H1 H2].
  cbn [replace_spaces]. rewrite (IH H2).
  destruct (Ascii.eqb c " ") eqn:E; [|reflexivity].
  rewrite Ascii.eqb_sym, E in H1. discriminate H1.
Qed.

Module JobCardFacts.
Import Jobs.

Lemma ad_before_iff (i : nat) :
  ad_before i = true <-> (0 < i /\ Nat.modulo i 5 = 0)%nat.
Proof.
  unfold ad_before. rewrite andb_true_iff, Nat.ltb_lt, Nat.eqb_eq. reflexivity.
Qed.

Lemma rows_from_jobs (k : nat) (jobs : list Job) :
  map snd (rows_from k jobs) = jobs.
Proof.
  revert k. induction jobs as [|job jobs IH]; intro k; simpl;
    [|rewrite IH]; reflexivity.
Qed.

Lemma rows_from_flag (k : nat) (jobs : list Job) (i : nat) :
  nth_error (map fst (rows_from k jobs)) i
  = if Nat.ltb i (List.length jobs) then Some (ad_before (k + i)) else None.
Proof.
  revert k i. induction jobs as [|job jobs IH]; intros k i; simpl.
  - destruct i; reflexivity.
  - destruct i as [|i]; simpl.
    + rewrite Nat.add_0_r. reflexivity.
    + rewrite IH. replace (S k + i)%nat with (k + S i)%nat by lia.
      reflexivity.
Qed.

Lemma fifth_step (k : nat) :
  (k / 5 = (k - 1) / 5 + (if ad_before k then 1 else 0))%nat.
Proof.
  pose proof (Nat.div_mod_eq k 5) as D.
  pose proof (Nat.div_mod_eq (k - 1) 5) as D'.
  pose proof (Nat.mod_upper_bound k 5) as B.
  pose proof (Nat.mod_upper_bound (k - 1) 5) as B'.
  destruct (ad_before k) eqn:E.
  - apply ad_before_iff in E. lia.
  - assert (N : ~ (0 < k /\ Nat.modulo k 5 = 0)%nat)
      by (intro H; apply ad_before_iff in H; congruence).
    lia.
Qed.

Lemma rows_from_count (k : nat) (jobs : list Job) :
  count_occ bool_dec (map fst (rows_from k jobs)) true
  = ((k + List.length jobs - 1) / 5 - (k - 1) / 5)%nat.
Proof.
  revert k. induction jobs as [|job jobs IH]; intro k;
    cbn [rows_from map fst count_occ List.length].
  - rewrite Nat.add_0_r. lia.
  - rewrite IH.
    replace (S k + List.length jobs - 1)%nat with (k + List.length jobs)%nat by lia.
    replace (k + S (List.length jobs) - 1)%nat with (k + List.length jobs)%nat by lia.
    replace (S k - 1)%nat with k by lia.
    pose proof (fifth_step k) as F.
    assert (M : (k / 5 <= (k + List.length jobs) / 5)%nat)
      by (apply Nat.Div0.div_le_mono; lia).
    destruct (bool_dec (ad_before k) true) as [E|E].
    + rewrite E in F. lia.
    + destruct (ad_before k); [contradiction E; reflexivity | lia].
Qed.

(** X13: Once loaded, a non-empty result is listed job by job in its order, with
    an ad banner before the job at each index 5, 10, 15, ...: never before
    the first job, never after the last, (n - 1) / 5 banners for n jobs. *)
Theorem an_ad_before_every_fifth_job (jobs : list Job) :
  jobs <> [] ->
  exists rows : list (bool * Job),
    listing false jobs = Rows rows
    /\ map snd rows = jobs
    /\ (forall i : nat,
           nth_error (map fst rows) i = Some true
           <-> (i < List.length jobs /\ 0 < i /\ Nat.modulo i 5 = 0)%nat)
    /\ count_occ bool_dec (map fst rows) true = ((List.length jobs - 1) / 5)%nat.
Proof.
  intro Hne. exists (rows_from 0 jobs). split.
  - unfold listing. destruct jobs; [contradiction | reflexivity].
  - split; [apply rows_from_jobs|]. split.
    + intro i. rewrite rows_from_flag. cbn [Nat.add].
      destruct (Nat.ltb_spec i (List.length jobs)) as [L|L].
      * rewrite <- ad_before_iff. split.
        -- intro H. injection H as H. tauto.
        -- intros [_ H]. rewrite H. reflexivity.
      * split; [discriminate | lia].
    + rewrite rows_from_count. cbn [Nat.add].
      replace ((0 - 1) / 5)%nat with 0%nat by reflexivity. lia.
Qed.

Lemma an_ad_before_every_fifth_job_witness :
  [titled 1 "a"; titled 2 "b"; titled 3 "c"; titled 4 "d"; titled 5 "e";
   titled 6 "f"; titled 7 "g"] <> []
  /\ exists rows : list (bool * Job),
       listing false [titled 1 "a"; titled 2 "b"; titled 3 "c"; titled 4 "d";
                      titled 5 "e"; titled 6 "f"; titled 7 "g"] = Rows rows
       /\ count_occ bool_dec (map fst rows) true = 1%nat.
Proof.
  assert (Hne : [titled 1 "a"; titled 2 "b"; titled 3 "c"; titled 4 "d";
                 titled 5 "e"; titled 6 "f"; titled 7 "g"] <> [])
    by discriminate.
  split; [exact Hne|].
  destruct (an_ad_before_every_fifth_job _ Hne) as (rows & H & _ & _ & C).
  exists rows. split; [exact H | exact C].
Defined.

Lemma replace_nonempty (s pattern replacement : string) :
  s <> "" -> replacement <> "" ->
  replace s pattern replacement <> "".
Proof.
  intros Hs Hr. destruct s as [|c s]; [contradiction|].
  cbn [replace]. destruct (startsWith (String c s) pattern).
  - destruct replacement; [contradiction | discriminate].
  - discriminate.
Qed.

(** X14: No label of a job card is ever empty.  The company, the location,
    the level and the category show their field when it holds a non-empty
    string, and the employment type shows its field with the first
    underscore turned into a space; a field that is missing or empty gives
    the fallback: "Company Name", "city, state" (which prints the words
    undefined and null for missing parts), "Full time", "Mid level" and
    "Technology". *)
Theorem card_labels_never_empty (job : Job) :
  company_label job <> "" /\ location_label job <> ""
  /\ employment_label job <> "" /\ experience_label job <> ""
  /\ category_label job <> ""
  /\ (forall s, company_name job = defined s -> s <> "" -> company_label job = s)
  /\ (forall s, location job = defined s -> s <> "" -> location_label job = s)
  /\ ((forall s, location job = defined s -> s = "") ->
      location_label job = interpolate (city job) ++ ", " ++ interpolate (state job))
  /\ ((forall s, company_name job = defined s -> s = "") ->
      company_label job = "Company Name")
  /\ (forall s, employmentType job = defined s -> s <> "" ->
      employment_label job = replace s "_" " ")
  /\ ((forall s, employmentType job = defined s -> s = "") ->
      employment_label job = "Full time")
  /\ (forall s, experienceLevel job = defined s -> s <> "" ->
      experience_label job = s)
  /\ ((forall s, experienceLevel job = defined s -> s = "") ->
      experience_label job = "Mid level")
  /\ (forall c s, category job = defined c -> category_name c = defined s ->
      s <> "" -> category_label job = s)
  /\ ((forall c s, category job = defined c -> category_name c = defined s ->
       s = "") ->
      category_label job = "Technology").
Proof.
  unfold company_label, location_label, employment_label, experience_label,
    category_label.
  repeat match goal with |- _ /\ _ => split end;
    try (apply or_else_nonempty; try discriminate).
  - destruct (interpolate (city job)); discriminate.
  - intros s H K. exact (or_else_defined _ _ _ H K).
  - intros s H K. exact (or_else_defined _ _ _ H K).
  - intro H. destruct (location job) as [| |s]; try reflexivity.
    rewrite (H s eq_refl). reflexivity.
  - intro H. destruct (company_name job) as [| |s]; try reflexivity.
    rewrite (H s eq_refl). reflexivity.
  - intros s H K. rewrite H.
    apply (or_else_defined _ _ _ eq_refl).
    apply replace_nonempty; [exact K | discriminate].
  - intro H. destruct (employmentType job) as [| |s]; try reflexivity.
    rewrite (H s eq_refl). reflexivity.
  - intros s H K. exact (or_else_defined _ _ _ H K).
  - intro H. destruct (experienceLevel job) as [| |s]; try reflexivity.
    rewrite (H s eq_refl). reflexivity.
  - intros c s H K L. rewrite H. exact (or_else_defined _ _ _ K L).
  - intro H. destruct (category job) as [| |c]; try reflexivity.
    destruct (category_name c) as [| |s] eqn:E; try reflexivity.
    rewrite (H c s eq_refl E). reflexivity.
Qed.

Lemma card_labels_never_empty_witness :
  location (titled 1 "Nurse") = undefined
  /\ location_label (titled 1 "Nurse") = "Austin, TX".
Proof.
  split; [reflexivity|].
  destruct (card_labels_never_empty (titled 1 "Nurse"))
    as (_ & _ & _ & _ & _ & _ & _ & H & _).
  apply H. intros s K. discriminate K.
Defined.

(** X15: The employment type is shown with its first underscore turned into a
    space, and only the first; a type without underscore is shown as it
    is. *)
Theorem employment_type_first_underscore (job : Job) :
  (forall before after : string,
      employmentType job = defined (before ++ "_" ++ after) ->
      includes before "_" = false ->
      employment_label job = before ++ " " ++ after)
  /\ (forall s : string,
         employmentType job = defined s -> includes s "_" = false -> s <> "" ->
         employment_label job = s).
Proof.
  unfold employment_label. split.
  - intros before after E H. rewrite E.
    change (before ++ "_" ++ after) with (before ++ String "_" after).
    rewrite (replace_first_char "_" " " before after H).
    apply (or_else_defined _ _ _ eq_refl).
    destruct before; discriminate.
  - intros s E H Hne. rewrite E, (replace_absent "_" " " s H).
    exact (or_else_defined _ _ _ eq_refl Hne).
Qed.

Lemma employment_type_first_underscore_witness :
  employmentType (titled 1 "Nurse") = defined ("full" ++ "_" ++ "time")
  /\ includes "full" "_" = false
  /\ employment_label (titled 1 "Nurse") = "full time".
Proof.
  split; [reflexivity|]. split; [reflexivity|].
  exact (proj1 (employment_type_first_underscore (titled 1 "Nurse"))
           "full" "time" eq_refl eq_refl).
Defined.

(** X16: A logo image is shown only for a company whose logoUrl is a non-empty
    string other than "NULL"; its source is the URL behind a slash with
    every space written %20, so the source holds no space, and a URL without
    spaces is kept as it is. *)
Theorem logo_source_has_no_space (job : Job) :
  (forall src : string,
      logo job = Some src ->
      exists c u,
        company job = defined c /\ logoUrl c = defined u
        /\ u <> "" /\ u <> "NULL"
        /\ src = "/" ++ replace_spaces u "%20"
        /\ includes src " " = false
        /\ (includes u " " = false -> src = "/" ++ u))
  /\ (logo job = None
      <-> forall c u, company job = defined c -> logoUrl c = defined u ->
                      u = "" \/ u = "NULL").
Proof.
  unfold logo, logo_url. split.
  - intros src H.
    destruct (company job) as [| |c]; try discriminate H.
    destruct (logoUrl c) as [| |u] eqn:L; try discriminate H.
    destruct (nonempty u) eqn:N; [|discriminate H].
    destruct (String.eqb_spec u "NULL") as [|Hn]; [discriminate H|].
    cbn [andb negb] in H. injection H as <-.
    exists c, u. repeat split; try assumption.
    + intros ->. discriminate N.
    + unfold logo_src. cbn [append includes startsWith Ascii.eqb Bool.eqb andb orb].
      apply replace_spaces_no_space.
    + intro K. unfold logo_src. rewrite (replace_spaces_absent u K). reflexivity.
  - destruct (company job) as [| |c].
    + split; [intros _ c u H; discriminate H | reflexivity].
    + split; [intros _ c u H; discriminate H | reflexivity].
    + destruct (logoUrl c) as [| |u] eqn:L.
      * split; [intros _ c' u H K; injection H as <-; congruence | reflexivity].
      * split; [intros _ c' u H K; injection H as <-; congruence | reflexivity].
      * destruct (String.eqb_spec u "") as [->|Hne].
        -- split; [intros _ c' u H K; injection H as <-; left; congruence
                  | reflexivity].
        -- unfold nonempty. destruct (String.eqb_spec u ""); [contradiction|].
           destruct (String.eqb_spec u "NULL") as [->|Hn]; cbn [negb andb].
           ++ split; [intros _ c' u H K; injection H as <-; right; congruence
                     | reflexivity].
           ++ split; [discriminate|].
              intro H. destruct (H c u eq_refl L); contradiction.
Qed.

Lemma logo_source_has_no_space_witness :
  logo (branded "logos/acme inc.png") = Some "/logos/acme%20inc.png"
  /\ includes "/logos/acme%20inc.png" " " = false.
Proof.
  assert (H : logo (branded "logos/acme inc.png") = Some "/logos/acme%20inc.png")
    by reflexivity.
  split; [exact H|].
  destruct (proj1 (logo_source_has_no_space (branded "logos/acme inc.png")) _ H)
    as (c & u & _ & _ & _ & _ & _ & K & _).
  exact K.
Defined.

(** X17: The card shows at most three skill badges: the first three entries of
    the skills array, each trimmed of its surrounding white space; skills
    given as a string, or missing, show none. *)
Theorem at_most_three_trimmed_skills (job : Job) :
  (List.length (skill_badges job) <= 3)%nat
  /\ (forall badge : string, In badge (skill_badges job) -> trim badge = badge)
  /\ (forall items : list string,
         skills job = defined (SkillsArray items) ->
         skill_badges job = map trim (firstn 3 items))
  /\ ((forall items, skills job <> defined (SkillsArray items)) ->
      skill_badges job = []).
Proof.
  unfold skill_badges. repeat match goal with |- _ /\ _ => split end.
  - destruct (skills job) as [| |[s|items]]; cbn [List.length]; try lia.
    rewrite length_map. apply firstn_le_length.
  - intros badge H. destruct (skills job) as [| |[s|items]]; try contradiction.
    apply in_map_iff in H. destruct H as (x & <- & _). apply trim_idempotent.
  - intros items ->. reflexivity.
  - intro H. destruct (skills job) as [| |[s|items]]; try reflexivity.
    exfalso. exact (H items eq_refl).
Qed.

Lemma at_most_three_trimmed_skills_witness :
  In "sql" (map trim (firstn 3 [" java "; "sql"; "aws"; "go"]))
  /\ trim "sql" = "sql".
Proof.
  assert (H : In "sql" (map trim (firstn 3 [" java "; "sql"; "aws"; "go"])))
    by (vm_compute; auto).
  split; [exact H|].
  exact (proj1 (proj2 (at_most_three_trimmed_skills
           {| id := Finite 1; title := undefined; description := undefined;
              company := undefined; location := undefined; city := undefined;
              state := undefined; employmentType := undefined;
              salary := undefined; experienceLevel := undefined;
              requirements := undefined; category := undefined;
              skills := defined (SkillsArray [" java "; "sql"; "aws"; "go"]) |}))
           "sql" H).
Defined.

(** X18: The card of the active filters is there exactly when some filter holds
    a non-empty string, and then it lists one badge for each such filter in
    the order search, type, level, location, industry.  After [clearFilters]
    the type and the level are the string "all": the card stays, with those
    two badges, though the query then returns every job. *)
Theorem active_filter_badges (filters : Filters) :
  (active_filters filters = Hole
   <-> search filters = ""
       /\ truthy (jobType filters) = false
       /\ truthy (experienceLevel_filter filters) = false
       /\ truthy (location_filter filters) = false
       /\ truthy (industry filters) = false)
  /\ badge_texts (active_filters filters)
     = ((if nonempty (search filters) then ["Search: "; search filters] else [])
        ++ match jobType filters with
           | Some v => if nonempty v then ["Type: "; replace v "_" " "] else []
           | None => []
           end
        ++ match experienceLevel_filter filters with
           | Some v => if nonempty v then ["Level: "; v] else []
           | None => []
           end
        ++ match location_filter filters with
           | Some v => if nonempty v then ["Location: "; v] else []
           | None => []
           end
        ++ match industry filters with
           | Some v => if nonempty v then ["Industry: "; v] else []
           | None => []
           end)%list
  /\ badge_texts (active_filters clearFilters) = ["Type: "; "all"; "Level: "; "all"]
  /\ (forall admin recruiter : Response,
         ok admin = true -> ok recruiter = true ->
         queryFn clearFilters admin recruiter
         = Resolved (json admin ++ json recruiter))
  /\ active_filters initial_filters = Hole.
Proof.
  split; [|split; [|split; [reflexivity|split; [|reflexivity]]]].
  - unfold active_filters, some_filter, nonempty.
    destruct (String.eqb_spec (search filters) "") as [E|E];
      destruct (truthy (jobType filters)),
        (truthy (experienceLevel_filter filters)),
        (truthy (location_filter filters)), (truthy (industry filters));
      cbn [negb orb when]; split; intro H; try discriminate H;
      try reflexivity; try tauto;
      destruct H as (H1 & H2 & H3 & H4 & H5); congruence.
  - unfold badge_texts, active_filters, filter_badge, some_filter.
    destruct (jobType filters) as [t|], (experienceLevel_filter filters) as [x|],
      (location_filter filters) as [l|], (industry filters) as [i|];
      unfold nonempty; cbn [truthy];
      repeat match goal with
        | |- context [String.eqb ?v ""] => destruct (String.eqb v "")
        end; reflexivity.
  - intros admin recruiter Ha Hr. unfold queryFn. rewrite Ha, Hr. reflexivity.
Qed.

Lemma active_filter_badges_witness :
  ok admin_response = true /\ ok recruiter_response = true
  /\ queryFn clearFilters admin_response recruiter_response
     = Resolved (json admin_response ++ json recruiter_response).
Proof.
  split; [reflexivity|]. split; [reflexivity|].
  destruct (active_filter_badges clearFilters) as (_ & _ & _ & H & _).
  exact (H admin_response recruiter_response eq_refl eq_refl).
Defined.

End JobCardFacts.

(** ** The form that adds a job *)

Module JobFormFacts.
Import JobForm.

Lemma run_app (st : State) (es es' : list Event) :
  run st (es ++ es')
  = (fst (run (fst (run st es)) es'),
     (snd (run st es) ++ snd (run (fst (run st es)) es'))%list).
Proof.
  revert st. induction es as [|e es IH]; intro st; cbn [run app].
  - cbn [fst snd app]. destruct (run st es'); reflexivity.
  - destruct (step st e) as [st1 f1]. rewrite IH.
    destruct (run st1 es) as [st2 f2]. cbn [fst snd].
    rewrite app_assoc. reflexivity.
Qed.

Lemma step_created (st : State) (e : Event) (jobData : JobValues) :
  In (CreateJob jobData) (snd (step st e)) ->
  e = Submit
  /\ exists c, selectedCompany st = Some c
               /\ jobData = with_companyId (values st) (id c).
Proof.
  destruct e; cbn [step snd In]; try tauto;
    try (intros [H|[H|[]]]; discriminate H);
    try (intros [H|[]]; discriminate H).
  destruct (selectedCompany st) as [c|]; cbn [snd In].
  - intros [H|[]]. injection H as <-. split; [reflexivity|].
    exists c. split; reflexivity.
  - intros [H|[]]. discriminate H.
Qed.

Lemma step_selected (st : State) (e : Event) (c : Company) :
  selectedCompany (fst (step st e)) = Some c ->
  e = PickCompany c \/ selectedCompany st = Some c.
Proof.
  destruct e; cbn [step fst selectedCompany]; try tauto; try discriminate.
  - intro H. injection H as <-. left. reflexivity.
  - intro H. right.
    destruct (selectedCompany st) eqn:E; cbn [fst] in H; rewrite E in H;
      exact H.
Qed.

(** X19: Whatever happens to the dialog, a job is only ever created for a
    company: every creation request of a run carries the id of the company
    that was selected when the run began or of one picked during it, never
    the companyId of the form. *)
Theorem job_created_only_for_a_picked_company (st : State)
    (events : list Event) (jobData : JobValues) :
  In (CreateJob jobData) (snd (run st events)) ->
  exists c : Company,
    (selectedCompany st = Some c \/ In (PickCompany c) events)
    /\ companyId jobData = id c.
Proof.
  revert st. induction events as [|e es IH]; intro st; cbn [run].
  - intros [].
  - destruct (step st e) as [st1 f1] eqn:S.
    destruct (run st1 es) as [st2 f2] eqn:R. cbn [snd].
    rewrite in_app_iff. intros [H|H].
    + assert (K : In (CreateJob jobData) (snd (step st e)))
        by (rewrite S; exact H).
      apply step_created in K. destruct K as (_ & c & Hc & ->).
      exists c. split; [left; exact Hc | reflexivity].
    + assert (K : In (CreateJob jobData) (snd (run st1 es)))
        by (rewrite R; exact H).
      apply IH in K. destruct K as (c & [Hc|Hc] & E).
      * exists c. split; [|exact E].
        assert (Hc' : selectedCompany (fst (step st e)) = Some c)
          by (rewrite S; exact Hc).
        apply step_selected in Hc'. destruct Hc' as [->|Hc'].
        -- right. left. reflexivity.
        -- left. exact Hc'.
      * exists c. split; [right; right; exact Hc | exact E].
Qed.

Lemma job_created_only_for_a_picked_company_witness :
  In (CreateJob (with_companyId defaultValues (Finite 42)))
     (snd (run initial [TypeCompany "Ac"; PickCompany acme; Submit]))
  /\ exists c : Company,
       (selectedCompany initial = Some c
        \/ In (PickCompany c) [TypeCompany "Ac"; PickCompany acme; Submit])
       /\ companyId (with_companyId defaultValues (Finite 42)) = id c.
Proof.
  assert (H : In (CreateJob (with_companyId defaultValues (Finite 42)))
                (snd (run initial [TypeCompany "Ac"; PickCompany acme; Submit])))
    by (left; reflexivity).
  split; [exact H|].
  exact (job_created_only_for_a_picked_company initial _ _ H).
Defined.

Lemma run_edits (st : State) (events : list Event) :
  forallb edits_only events = true ->
  selectedCompany (fst (run st events)) = selectedCompany st
  /\ snd (run st events) = [].
Proof.
  revert st. induction events as [|e es IH]; intros st H; cbn [run].
  - split; reflexivity.
  - cbn [forallb] in H. apply andb_true_iff in H. destruct H as [He Hes].
    destruct (step st e) as [st1 f1] eqn:S.
    destruct (IH st1 Hes) as [I1 I2].
    destruct (run st1 es) as [st2 f2]. cbn [fst snd] in *.
    destruct e; try discriminate He; cbn [step] in S;
      injection S as <- <-; subst f2; cbn [selectedCompany] in I1;
      split; [exact I1 | reflexivity | exact I1 | reflexivity
             | exact I1 | reflexivity].
Qed.

(** X20: The selection is cleared when a job was created and when the dialog is
    cancelled, and typing or editing never restores it: submitting again
    without picking a company is refused with "Company required" and sends
    nothing.  Typing in the company box does not drop a selection either:
    a submit after edits only still creates the job for the picked
    company. *)
Theorem selection_cleared_after_creation (st : State) (edits : list Event) :
  forallb edits_only edits = true ->
  snd (run st ([CreateSucceeded] ++ edits ++ [Submit]))
  = [Toast "Job created successfully" "The job posting has been created" false;
     InvalidateJobs;
     Toast "Company required" "Please select a company for this job" true]
  /\ snd (run st ([Cancel] ++ edits ++ [Submit]))
     = [Toast "Company required" "Please select a company for this job" true]
  /\ (forall c : Company,
         exists jobData : JobValues,
           snd (run st ([PickCompany c] ++ edits ++ [Submit])) = [CreateJob jobData]
           /\ companyId jobData = id c).
Proof.
  intro H.
  assert (R : forall st0,
             snd (run st0 (edits ++ [Submit]))
             = snd (step (fst (run st0 edits)) Submit)).
  { intro st0. rewrite run_app. cbn [snd].
    rewrite (proj2 (run_edits st0 edits H)). cbn [app run].
    destruct (step (fst (run st0 edits)) Submit). cbn [snd].
    apply app_nil_r. }
  assert (P : forall e st0, run st0 ([e] ++ edits ++ [Submit])
                            = (fst (run (fst (step st0 e)) (edits ++ [Submit])),
                               (snd (step st0 e)
                                ++ snd (run (fst (step st0 e)) (edits ++ [Submit])))%list)).
  { intros e st0. cbn [app run]. destruct (step st0 e) as [s1 f1].
    cbn [fst snd]. destruct (run s1 (edits ++ [Submit])). reflexivity. }
  split; [|split].
  - rewrite P. cbn [snd]. rewrite R. cbn [step fst snd].
    rewrite (proj1 (run_edits _ edits H)). reflexivity.
  - rewrite P. cbn [snd]. rewrite R. cbn [step fst snd].
    rewrite (proj1 (run_edits _ edits H)). reflexivity.
  - intro c. rewrite P. cbn [snd]. rewrite R. cbn [step fst snd app].
    rewrite (proj1 (run_edits _ edits H)). cbn [selectedCompany snd].
    eexists. split; reflexivity.
Qed.

Lemma selection_cleared_after_creation_witness :
  forallb edits_only [TypeCompany "Glo"; OpenChange true] = true
  /\ snd (run initial ([Cancel] ++ [TypeCompany "Glo"; OpenChange true] ++ [Submit]))
     = [Toast "Company required" "Please select a company for this job" true].
Proof.
  split; [reflexivity|].
  exact (proj1 (proj2 (selection_cleared_after_creation initial
                         [TypeCompany "Glo"; OpenChange true] eq_refl))).
Defined.

End JobFormFacts.

(** ** The sign-in page *)

Module AuthFacts.
Import Auth.

(** X21: A registration is posted exactly when the confirmation equals the
    password and the password has at least 6 characters; otherwise one
    destructive toast is shown and nothing is sent, the mismatch being
    reported before the length.  A login is posted as it is, with no check. *)
Theorem register_needs_matching_long_password (formData : AuthFormData)
    (plan : string) :
  (confirmPassword formData = Some (password formData) ->
   (6 <= String.length (password formData))%nat ->
   handleSubmit formData plan RegisterForm = [register_request formData plan])
  /\ (confirmPassword formData <> Some (password formData) ->
      handleSubmit formData plan RegisterForm
      = [Toast "Passwords don't match"
           "Please make sure your passwords match." true])
  /\ (confirmPassword formData = Some (password formData) ->
      (String.length (password formData) < 6)%nat ->
      handleSubmit formData plan RegisterForm
      = [Toast "Password too short"
           "Password must be at least 6 characters long." true])
  /\ (forall body : RegisterBody,
         In (PostRegister body) (handleSubmit formData plan RegisterForm) ->
         confirmPassword formData = Some (body_password body)
         /\ (6 <= String.length (body_password body))%nat
         /\ subscriptionPlan body = plan)
  /\ handleSubmit formData plan LoginForm
     = [Log "Submitting login for:" (email formData);
        PostLogin (email formData) (password formData)].
Proof.
  unfold handleSubmit.
  assert (E : match confirmPassword formData with
              | Some c => String.eqb (password formData) c
              | None => false
              end = true <-> confirmPassword formData = Some (password formData)).
  { destruct (confirmPassword formData) as [c|].
    - rewrite String.eqb_eq. split; [intros ->; reflexivity|].
      intro H. injection H as ->. reflexivity.
    - split; discriminate. }
  destruct (match confirmPassword formData with
            | Some c => String.eqb (password formData) c
            | None => false
            end) eqn:M; cbn [negb].
  - assert (C : confirmPassword formData = Some (password formData))
      by (apply E; reflexivity).
    destruct (Nat.ltb_spec (String.length (password formData)) 6) as [L|L].
    + split; [intros _ K; lia|]. split; [intro K; contradiction|].
      split; [reflexivity|]. split; [|reflexivity].
      intros body [K|[]]. discriminate K.
    + split; [reflexivity|]. split; [intro K; contradiction|].
      split; [intros _ K; lia|]. split; [|reflexivity].
      intros body [K|[]]. unfold register_request in K. injection K as <-.
      cbn. auto.
  - assert (C : confirmPassword formData <> Some (password formData))
      by (intro K; apply E in K; discriminate K).
    split; [intro K; contradiction|]. split; [reflexivity|].
    split; [intro K; contradiction|]. split; [|reflexivity].
    intros body [K|[]]. discriminate K.
Qed.

Lemma register_needs_matching_long_password_witness :
  confirmPassword sample_form = Some (password sample_form)
  /\ (6 <= String.length (password sample_form))%nat
  /\ handleSubmit sample_form "free" RegisterForm
     = [register_request sample_form "free"].
Proof.
  assert (L : (6 <= String.length (password sample_form))%nat)
    by (vm_compute; repeat constructor).
  split; [reflexivity|]. split; [exact L|].
  exact (proj1 (register_needs_matching_long_password sample_form "free")
           eq_refl L).
Defined.

(** X22: What is typed is what is sent: after the six fields were set, in the
    order of the form, a password of at least 6 characters repeated as its
    confirmation is posted with the mail, the names and the account type
    that were typed and with the plan of the URL; the previous content of
    the form plays no part. *)
Theorem typed_fields_are_posted (prev : AuthFormData) (plan : string)
    (first last mail account pass : string) :
  (6 <= String.length pass)%nat ->
  handleSubmit
    (handleInputChange ConfirmPassword pass
       (handleInputChange Password pass
          (handleInputChange UserType account
             (handleInputChange Email mail
                (handleInputChange LastName last
                   (handleInputChange FirstName first prev))))))
    plan RegisterForm
  = [PostRegister
       {| body_email := mail; body_password := pass;
          body_firstName := Some first; body_lastName := Some last;
          body_userType := Some account; subscriptionPlan := plan |}].
Proof.
  intro L. unfold handleSubmit, handleInputChange.
  cbn [confirmPassword password email firstName lastName userType].
  rewrite String.eqb_refl. cbn [negb].
  destruct (Nat.ltb_spec (String.length pass) 6) as [K|K]; [lia|].
  reflexivity.
Qed.

Lemma typed_fields_are_posted_witness :
  (6 <= String.length "s3cret!")%nat
  /\ handleSubmit
       (handleInputChange ConfirmPassword "s3cret!"
          (handleInputChange Password "s3cret!"
             (handleInputChange UserType "client"
                (handleInputChange Email "bo@example.com"
                   (handleInputChange LastName "Ng"
                      (handleInputChange FirstName "Bo" (initial_formData "free")))))))
       "free" RegisterForm
     = [PostRegister
          {| body_email := "bo@example.com"; body_password := "s3cret!";
             body_firstName := Some "Bo"; body_lastName := Some "Ng";
             body_userType := Some "client"; subscriptionPlan := "free" |}].
Proof.
  assert (L : (6 <= String.length "s3cret!")%nat)
    by (vm_compute; repeat constructor).
  split; [exact L|].
  exact (typed_fields_are_posted (initial_formData "free") "free"
           "Bo" "Ng" "bo@example.com" "client" "s3cret!" L).
Defined.

(** X23: The plan of the URL decides four things together.  With plan recruiter,
    and only then, the account type starts as recruiter, the button reads
    "Start Free Trial" and a successful registration leads to the checkout;
    any other plan leads to the dashboard.  A missing or empty parameter is
    the free plan, which shows no notice; every other plan shows one, and a
    plan that is neither recruiter nor client is announced with the sentence
    of the free plan. *)
Theorem plan_decides_account_and_redirect (param : option string) :
  let plan := plan_of param in
  (plan = "recruiter"
   <-> userType (initial_formData plan) = Some "recruiter")
  /\ (plan = "recruiter"
      <-> register_button false plan = text "Start Free Trial")
  /\ (plan = "recruiter"
      <-> In (SetLocation "/checkout?plan=recruiter") (register_onSuccess plan))
  /\ (plan <> "recruiter"
      <-> In (SetLocation "/dashboard") (register_onSuccess plan))
  /\ (plan = "free" <-> plan_notice plan = Hole)
  /\ (param = None \/ param = Some "" -> plan = "free")
  /\ (plan <> "free" -> plan <> "recruiter" -> plan <> "client" ->
      texts (plan_notice plan) = ["Free plan - Get started at no cost"])
  /\ (plan = "client" ->
      userType (initial_formData plan) = Some "client"
      /\ texts (plan_notice plan)
         = ["Enterprise plan - Custom pricing based on your needs"]).
Proof.
  cbv zeta. set (plan := plan_of param).
  repeat match goal with |- _ /\ _ => split end.
  - unfold initial_formData. cbn [userType].
    destruct (String.eqb_spec plan "recruiter") as [E|E];
      [split; auto|].
    destruct (String.eqb_spec plan "client");
      split; intro H; try contradiction; discriminate H.
  - unfold register_button.
    destruct (String.eqb_spec plan "recruiter") as [E|E];
      split; intro H; try reflexivity; try contradiction; try assumption;
      discriminate H.
  - unfold register_onSuccess. cbn [In].
    destruct (String.eqb_spec plan "recruiter") as [E|E]; split; intro H;
      try tauto; try contradiction.
    destruct H as [H|[H|[]]]; discriminate H.
  - unfold register_onSuccess. cbn [In].
    destruct (String.eqb_spec plan "recruiter") as [E|E]; split; intro H;
      try tauto; try contradiction.
    destruct H as [H|[H|[]]]; discriminate H.
  - unfold plan_notice.
    destruct (String.eqb_spec plan "free") as [E|E]; cbn [negb when];
      split; intro H; try reflexivity; try contradiction; try assumption;
      discriminate H.
  - subst plan. intros [->| ->]; reflexivity.
  - intros Hf Hr Hc. unfold plan_notice, getPlanDescription.
    destruct (String.eqb_spec plan "free"); [contradiction|].
    destruct (String.eqb_spec plan "recruiter"); [contradiction|].
    destruct (String.eqb_spec plan "client"); [contradiction|].
    reflexivity.
  - intro E. rewrite E. split; reflexivity.
Qed.

Lemma plan_decides_account_and_redirect_witness :
  plan_of (Some "gold") <> "free" /\ plan_of (Some "gold") <> "recruiter"
  /\ plan_of (Some "gold") <> "client"
  /\ texts (plan_notice (plan_of (Some "gold")))
     = ["Free plan - Get started at no cost"].
Proof.
  assert (Hf : plan_of (Some "gold") <> "free") by discriminate.
  assert (Hr : plan_of (Some "gold") <> "recruiter") by discriminate.
  assert (Hc : plan_of (Some "gold") <> "client") by discriminate.
  split; [exact Hf|]. split; [exact Hr|]. split; [exact Hc|].
  destruct (plan_decides_account_and_redirect (Some "gold"))
    as (_ & _ & _ & _ & _ & _ & H & _).
  exact (H Hf Hr Hc).
Defined.

End AuthFacts.
